(** * Emergency Safety Helper: frontend handlers and guidance pipeline

    A shallow embedding of [frontend/src/ga4.js] and of the two revisions of
    [frontend/src/App.js], followed by a model of the backend guidance
    pipeline, whose Python sources are not part of the available files and
    which is therefore written down from the design document.

    JavaScript strings are sequences of UTF-16 code units; effects
    (analytics beacons, network requests, console output, React state
    updates) are made explicit as a trace and a state record. *)

From Stdlib Require Import List NArith ZArith Bool String Ascii Lia DecimalString.
Import ListNotations.
Open Scope string_scope.
Open Scope list_scope.

(* ================================================================== *)
(** * JavaScript values used by the frontend *)
(* ================================================================== *)

(** A JavaScript string: its UTF-16 code units. *)
Definition jsstring := list N.

(** The code units of an ASCII literal of the source. *)
Definition str (s : string) : jsstring :=
  map N_of_ascii (list_ascii_of_string s).

Definition isEmpty (s : jsstring) : bool :=
  match s with [] => true | _ :: _ => false end.

(** ECMAScript [WhiteSpace] and [LineTerminator] code units, the set
    [String.prototype.trim] removes. *)
Definition isWhiteSpace (c : N) : bool :=
  ((c =? 9) || (c =? 10) || (c =? 11) || (c =? 12) || (c =? 13) || (c =? 32)
   || (c =? 160) || (c =? 5760) || ((8192 <=? c) && (c <=? 8202))
   || (c =? 8232) || (c =? 8233) || (c =? 8239) || (c =? 8287)
   || (c =? 12288) || (c =? 65279))%N.

Fixpoint trimStart (s : jsstring) : jsstring :=
  match s with
  | [] => []
  | c :: rest => if isWhiteSpace c then trimStart rest else s
  end.

Definition trimEnd (s : jsstring) : jsstring := rev (trimStart (rev s)).

(** [String.prototype.trim]. *)
Definition trim (s : jsstring) : jsstring := trimEnd (trimStart s).

(** Primitive values: what a JSON field, an analytics argument or an
    error message can hold. Numbers are the integers. *)
Inductive JsVal : Type :=
| VUndefined
| VNull
| VBool (b : bool)
| VNum (z : Z)
| VStr (s : jsstring).

(** ToBoolean. *)
Definition truthy (v : JsVal) : bool :=
  match v with
  | VUndefined | VNull => false
  | VBool b => b
  | VNum z => negb (z =? 0)%Z
  | VStr s => negb (isEmpty s)
  end.

(** [a || b]. *)
Definition js_or (a b : JsVal) : JsVal := if truthy a then a else b.

(** Decimal rendering of a non-negative integer, as a template literal
    prints an HTTP status. *)
Definition decimal (n : N) : jsstring :=
  str (NilZero.string_of_uint (N.to_uint n)).

(** [Array.prototype.join] on an array of strings. *)
Fixpoint join (sep : jsstring) (xs : list jsstring) : jsstring :=
  match xs with
  | [] => []
  | [x] => x
  | x :: rest => x ++ sep ++ join sep rest
  end.

(** Where the engine itself raises a [TypeError]. *)
Inductive TypeErrorSite : Type :=
| DestructureNullish   (* parameter pattern [{ a, b }] applied to null/undefined *)
| ReadPropertyOfNull   (* [x.p] with [x] null *)
| CallOfNonFunction.   (* [f(...)] with [f] not callable *)

(** A thrown value (or the reason of a rejected promise). *)
Inductive Thrown : Type :=
| ThrownNullish                        (* [undefined] or [null] was thrown *)
| ThrownError (message : JsVal)        (* an object with this [message] property *)
| ThrownTypeError (site : TypeErrorSite).

(** The message text engines attach to their own TypeErrors differs
    between engines; it is a parameter. *)
Definition Engine := TypeErrorSite -> jsstring.

(** [err?.message]. *)
Definition errMessage (eng : Engine) (err : Thrown) : JsVal :=
  match err with
  | ThrownNullish => VUndefined
  | ThrownError m => m
  | ThrownTypeError site => VStr (eng site)
  end.

Inductive Completion (A : Type) : Type :=
| Normal (a : A)
| Throw (e : Thrown).
Arguments Normal {A} a.
Arguments Throw {A} e.


Inductive Mode : Type := normal | deep.

Definition modeName (m : Mode) : jsstring :=
  match m with normal => str "normal" | deep => str "deep" end.

Definition isDeep (m : Mode) : bool :=
  match m with deep => true | normal => false end.

(** The argument of [trackEvent]. Any value other than [undefined] and
    [null] destructures; the four properties the pattern reads are kept
    (a primitive such as a number has none of them: all [VUndefined]). *)
Inductive EventArg : Type :=
| ArgUndefined
| ArgNull
| ArgObject (action category label value : JsVal).

(** The second argument of [fetch]. The body is [JSON.stringify] of an
    object literal; it is kept as the fields that are serialised. *)
Record RequestInit : Type := mkInit {
  method : jsstring;
  headers : list (jsstring * jsstring);
  body : list (jsstring * JsVal)
}.

Inductive ConsoleArg : Type :=
| CStr (s : jsstring)
| CMode (m : Mode)          (* the object literal [{ mode }] *)
| CErr (e : Thrown).

(** Observable calls. [CallTrackEvent] and [CallTrackPageView] are the
    calls the component makes into ga4.js; [Gtag] is a call of
    [window.gtag]. *)
Inductive Effect : Type :=
| Gtag (command : jsstring) (name : JsVal) (params : list (jsstring * JsVal))
| CallTrackEvent (arg : EventArg)
| CallTrackPageView (path : JsVal)
| Fetch (url : jsstring) (init : RequestInit)
| PreventDefault
| ConsoleLog (args : list ConsoleArg)
| ConsoleError (args : list ConsoleArg)
| WindowOpen (url target features : jsstring).

(** The global object as ga4.js sees it in the page of this
    application. [window.gtag] is installed by the GA4 snippet of the
    page: it is either not there (falsy) or the function that queues its
    arguments and returns. [Global] below has every other value. *)
Inductive Host : Type :=
| NoWindow                       (* [typeof window === "undefined"] *)
| Window (gtagDefined : bool).

(* ================================================================== *)
(** * ga4.js *)
(* ================================================================== *)

Module ga4.

Definition GA_MEASUREMENT_ID : jsstring := str "G-XXXXXXXXXX".

Definition trackEvent (h : Host) (arg : EventArg)
  : list Effect * Completion unit :=
  match arg with
  | ArgUndefined | ArgNull => ([], Throw (ThrownTypeError DestructureNullish))
  | ArgObject action category label value =>
      match h with
      | NoWindow => ([], Normal tt)
      | Window false => ([], Normal tt)
      | Window true =>
          ([Gtag (str "event") action
              [(str "event_category", category);
               (str "event_label", label);
               (str "value", value)]],
           Normal tt)
      end
  end.

Definition trackPageView (h : Host) (path : JsVal)
  : list Effect * Completion unit :=
  match h with
  | NoWindow => ([], Normal tt)
  | Window false => ([], Normal tt)
  | Window true =>
      ([Gtag (str "event") (VStr (str "page_view")) [(str "page_path", path)]],
       Normal tt)
  end.

End ga4.

(** [window] exists and [window.gtag] is truthy. *)
Definition gtagAvailable (h : Host) : bool :=
  match h with Window true => true | _ => false end.

(* ------------------------------------------------------------------ *)
(** ** ga4.js in any page *)
(* ------------------------------------------------------------------ *)

(** What [window.gtag] can hold, as the helpers tell the values apart:
    a falsy value, a truthy value that cannot be called, or a function.
    A function is kept as what a call of it does with its arguments: it
    returns, or it throws. *)
Inductive GtagValue : Type :=
| GtagFalsy
| GtagNotCallable
| GtagFunction
    (behaviour : jsstring -> JsVal -> list (jsstring * JsVal) -> Completion unit).

(** What [window] can be: not defined ([typeof window] is
    ["undefined"]), [null] (its [typeof] is ["object"] and reading a
    property of it throws), or a value with its [gtag] property (a
    primitive has none: [GtagFalsy]). *)
Inductive Global : Type :=
| WindowUndefined
| WindowNull
| WindowObject (gtag : GtagValue).



Module ga4_full.

(** The body of both helpers after the parameters are bound:
    the two guards, then [window.gtag("event", name, params)]. *)
Definition guardedCall (w : Global) (name : JsVal)
    (params : list (jsstring * JsVal)) : list Effect * Completion unit :=
  match w with
  | WindowUndefined => ([], Normal tt)
  | WindowNull => ([], Throw (ThrownTypeError ReadPropertyOfNull))
  | WindowObject GtagFalsy => ([], Normal tt)
  | WindowObject GtagNotCallable => ([], Throw (ThrownTypeError CallOfNonFunction))
  | WindowObject (GtagFunction behaviour) =>
      ([Gtag (str "event") name params],
       match behaviour (str "event") name params with
       | Normal _ => Normal tt
       | Throw e => Throw e
       end)
  end.

Definition trackEvent (w : Global) (arg : EventArg)
  : list Effect * Completion unit :=
  match arg with
  | ArgUndefined | ArgNull => ([], Throw (ThrownTypeError DestructureNullish))
  | ArgObject action category label value =>
      guardedCall w action
        [(str "event_category", category);
         (str "event_label", label);
         (str "value", value)]
  end.

Definition trackPageView (w : Global) (path : JsVal)
  : list Effect * Completion unit :=
  guardedCall w (VStr (str "page_view")) [(str "page_path", path)].

End ga4_full.

(** A [gtag] that throws whatever it is called with, and one that
    returns. *)
Definition throwingGtag : GtagValue :=
  GtagFunction (fun _ _ _ => Throw (ThrownError (VStr (str "blocked")))).

Definition queueingGtag : GtagValue :=
  GtagFunction (fun _ _ _ => Normal tt).

(* ================================================================== *)
(** * App.js: state, environment and the handler monad *)
(* ================================================================== *)

(** The response object as the component reads it: the fields of a
    GuidanceResult, each possibly absent. [guidesUsed] is an array of
    guide keys, or [None] when the property is missing or null. *)
Record GuidanceResult : Type := mkResult {
  hazard : JsVal;
  hazardSource : JsVal;
  guidesUsed : option (list jsstring);
  canDeepDive : JsVal;
  guidance : JsVal;
  resMode : JsVal            (* the [mode] property of the response *)
}.

(** What [res.json()] resolves to when the body is one the API sends:
    JSON [null] or an object. A body that is a bare boolean, number,
    string or array is not represented. *)
Inductive Data : Type :=
| DNull
| DObject (r : GuidanceResult).

Inductive JsonOutcome : Type :=
| JsonRejected (e : Thrown)
| JsonResolved (data : Data).

Record Response : Type := mkResponse {
  ok : bool;
  status : N;
  json : JsonOutcome
}.

Inductive FetchOutcome : Type :=
| FetchRejected (e : Thrown)
| FetchResolved (res : Response).

(** Everything outside the component: the global object, the engine's
    error texts, the network (the outcome of a request may depend on the
    request) and the build-time environment variable. *)
Record Env : Type := mkEnv {
  host : Host;
  engine : Engine;
  fetch : jsstring -> RequestInit -> FetchOutcome;
  REACT_APP_API_URL : option jsstring
}.

(** The five [useState] cells. *)
Record AppState : Type := mkState {
  situationText : jsstring;
  mode : Mode;
  loading : bool;
  result : option GuidanceResult;     (* [None] is [null] *)
  error : jsstring
}.

(** [useState] initial values. *)
Definition initialState : AppState :=
  mkState (str "") normal false None (str "").

(** The run of a handler from a state: the calls it made, in order, the
    state after its updates, and how it completed. *)
Record Out (A : Type) : Type := mkOut {
  trace : list Effect;
  final : AppState;
  completion : Completion A
}.
Arguments mkOut {A} _ _ _.
Arguments trace {A} _.
Arguments final {A} _.
Arguments completion {A} _.

Definition M (A : Type) : Type := AppState -> Out A.

Definition ret {A} (a : A) : M A := fun st => mkOut [] st (Normal a).

Definition bind {A B} (m : M A) (k : A -> M B) : M B :=
  fun st =>
    match m st with
    | mkOut tr st1 (Normal a) =>
        match k a st1 with
        | mkOut tr' st2 c => mkOut (tr ++ tr') st2 c
        end
    | mkOut tr st1 (Throw e) => mkOut tr st1 (Throw e)
    end.

Declare Scope js_scope.
Delimit Scope js_scope with js.
Notation "x <- c1 ;; c2" := (bind c1 (fun x => c2))
  (at level 100, c1 at next level, right associativity) : js_scope.
Notation "c1 ;; c2" := (bind c1 (fun _ => c2))
  (at level 100, right associativity) : js_scope.
Open Scope js_scope.

Definition emit (e : Effect) : M unit := fun st => mkOut [e] st (Normal tt).

Definition throw {A} (e : Thrown) : M A := fun st => mkOut [] st (Throw e).

(** A call into ga4.js: its [window.gtag] calls and its completion. *)
Definition call (r : list Effect * Completion unit) : M unit :=
  fun st => mkOut (fst r) st (snd r).

(** [try { body } catch (err) { handler err } finally { fin }]. *)
Definition tryCatchFinally {A} (body : M A) (handler : Thrown -> M A)
    (fin : M unit) : M A :=
  fun st =>
    match
      match body st with
      | mkOut tr st1 (Normal a) => mkOut tr st1 (Normal a)
      | mkOut tr st1 (Throw e) =>
          match handler e st1 with
          | mkOut tr' st2 c => mkOut (tr ++ tr') st2 c
          end
      end
    with
    | mkOut tr st1 c =>
        match fin st1 with
        | mkOut tr' st2 (Normal _) => mkOut (tr ++ tr') st2 c
        | mkOut tr' st2 (Throw e) => mkOut (tr ++ tr') st2 (Throw e)
        end
    end.

Definition setSituationText (s : jsstring) : M unit :=
  fun st => mkOut [] (mkState s (mode st) (loading st) (result st) (error st)) (Normal tt).

Definition setMode (m : Mode) : M unit :=
  fun st => mkOut [] (mkState (situationText st) m (loading st) (result st) (error st)) (Normal tt).

Definition setLoading (b : bool) : M unit :=
  fun st => mkOut [] (mkState (situationText st) (mode st) b (result st) (error st)) (Normal tt).

Definition setResult (r : option GuidanceResult) : M unit :=
  fun st => mkOut [] (mkState (situationText st) (mode st) (loading st) r (error st)) (Normal tt).

Definition setError (s : jsstring) : M unit :=
  fun st => mkOut [] (mkState (situationText st) (mode st) (loading st) (result st) s) (Normal tt).

Definition trackEvent (env : Env) (arg : EventArg) : M unit :=
  emit (CallTrackEvent arg) ;; call (ga4.trackEvent (host env) arg).

Definition trackPageView (env : Env) (path : JsVal) : M unit :=
  emit (CallTrackPageView path) ;; call (ga4.trackPageView (host env) path).

(** [await fetch(url, init)]. *)
Definition awaitFetch (env : Env) (url : jsstring) (init : RequestInit)
  : M Response :=
  emit (Fetch url init) ;;
  match fetch env url init with
  | FetchRejected e => throw e
  | FetchResolved res => ret res
  end.

(** [await res.json()]. *)
Definition awaitJson (res : Response) : M Data :=
  match json res with
  | JsonRejected e => throw e
  | JsonResolved d => ret d
  end.

(** [setResult(data)]. *)
Definition dataResult (d : Data) : option GuidanceResult :=
  match d with DNull => None | DObject r => Some r end.

(** [data.hazard]. *)
Definition readHazard (d : Data) : M JsVal :=
  match d with
  | DNull => throw (ThrownTypeError ReadPropertyOfNull)
  | DObject r => ret (hazard r)
  end.

(** The init object both revisions pass to [fetch]. *)
Definition postJson (trimmed : jsstring) : RequestInit :=
  mkInit (str "POST")
         [(str "Content-Type", str "application/json")]
         [(str "situationText", VStr trimmed)].

(** [mode === 'deep' ? '/api/help/deep' : '/api/help']. *)
Definition endpointOf (m : Mode) : jsstring :=
  if isDeep m then str "/api/help/deep" else str "/api/help".

(** What can happen to the rendered component: React mounting it, and
    the user acting on a control. *)
Inductive UiEvent : Type :=
| Mount
| Change (value : jsstring)        (* the textarea's onChange *)
| Toggle (checked : bool)          (* the mode checkbox's onChange *)
| Submit                           (* the form's onSubmit *)
| Reset                            (* the Reset button's onClick *)
| DonateClick.                     (* the Ko-fi button's onClick *)

(* ------------------------------------------------------------------ *)
(** ** First revision of App.js *)
(* ------------------------------------------------------------------ *)

Module Rev1.

Definition API_BASE : jsstring := str "http://127.0.0.1:5000".

(** The effect of [useEffect(() => trackPageView('/'), [])]. *)
Definition onMount (env : Env) : M unit :=
  trackPageView env (VStr (str "/")).

Definition handleSubmit (env : Env) (situationText : jsstring) (mode : Mode)
  : M unit :=
  emit PreventDefault ;;
  setError (str "") ;;
  setResult None ;;
  let trimmed := trim situationText in
  if isEmpty trimmed then
    setError (str "Please describe your situation.")
  else
    setLoading true ;;
    let endpoint := endpointOf mode in
    trackEvent env
      (ArgObject (VStr (str "submit_help_request")) (VStr (str "help"))
                 (VStr (modeName mode)) VUndefined) ;;
    tryCatchFinally
      (res <- awaitFetch env (API_BASE ++ endpoint) (postJson trimmed) ;;
       (if negb (ok res)
        then throw (ThrownError (VStr (str "API error: " ++ decimal (status res))))
        else ret tt) ;;
       data <- awaitJson res ;;
       setResult (dataResult data) ;;
       hz <- readHazard data ;;
       trackEvent env
         (ArgObject (VStr (str "help_request_success")) (VStr (str "help"))
                    (js_or hz (VStr (str "unknown"))) VUndefined))
      (fun err =>
         emit (ConsoleError [CErr err]) ;;
         setError (str "Something went wrong. Please try again.") ;;
         trackEvent env
           (ArgObject (VStr (str "help_request_error")) (VStr (str "help"))
                      (js_or (errMessage (engine env) err)
                             (VStr (str "unknown_error")))
                      VUndefined))
      (setLoading false).

Definition handleReset (env : Env) : M unit :=
  setSituationText (str "") ;;
  setResult None ;;
  setError (str "") ;;
  trackEvent env
    (ArgObject (VStr (str "help_form_reset")) (VStr (str "help"))
               (VStr (str "reset")) VUndefined).

(** [result?.mode || mode]. *)
Definition resultMode (st : AppState) : JsVal :=
  js_or (match result st with Some r => resMode r | None => VUndefined end)
        (VStr (modeName (mode st))).

(** The text of the Guides pill of the result card, when it is rendered:
    [result.guidesUsed?.length > 0 && <span>Guides: {join}</span>]
    inside [result && (...)]. *)
Definition guidesPill (st : AppState) : option jsstring :=
  match result st with
  | None => None
  | Some r =>
      match guidesUsed r with
      | None => None
      | Some keys =>
          if (0 <? List.length keys)%nat
          then Some (str "Guides: " ++ join (str ", ") keys)
          else None
      end
  end.

(** The argument of [marked.parse] in the result card:
    [marked.parse(result.guidance)]. *)
Definition markedInput (r : GuidanceResult) : JsVal := guidance r.

(** [disabled] of the submit and of the Reset button. *)
Definition submitDisabled (st : AppState) : bool := loading st.
Definition resetDisabled (st : AppState) : bool :=
  loading st && match result st with None => true | Some _ => false end.


(** One event on the rendered component. A disabled control fires
    nothing. This revision has no Ko-fi button. *)
Definition dispatch (env : Env) (ev : UiEvent) : M unit :=
  fun st =>
    match ev with
    | Mount => onMount env st
    | Change value => setSituationText value st
    | Toggle checked =>
        if loading st then ret tt st
        else setMode (if checked then deep else normal) st
    | Submit =>
        if submitDisabled st then ret tt st
        else handleSubmit env (situationText st) (mode st) st
    | Reset =>
        if resetDisabled st then ret tt st else handleReset env st
    | DonateClick => ret tt st
    end.

(** A session in which every request settles before the next event:
    the events handled one after the other, a submission run to its end
    within its event. [liveRun] below lets events in while a request is
    in flight. *)
Fixpoint session (env : Env) (st : AppState) (evs : list UiEvent)
  : list Effect * AppState :=
  match evs with
  | [] => ([], st)
  | ev :: rest =>
      let o := dispatch env ev st in
      let r := session env (final o) rest in
      (trace o ++ fst r, snd r)
  end.

End Rev1.

(* ------------------------------------------------------------------ *)
(** ** Second revision of App.js *)
(* ------------------------------------------------------------------ *)

Module Rev2.

(** [s.replace(/\/$/, '')]: the pattern matches a slash that is the last
    code unit; the leftmost match is removed. *)
Fixpoint replaceTrailingSlash (s : jsstring) : jsstring :=
  match s with
  | [] => []
  | c :: rest =>
      match rest with
      | [] => if (c =? 47)%N then [] else [c]
      | _ :: _ => c :: replaceTrailingSlash rest
      end
  end.

(** [(process.env.REACT_APP_API_URL || 'http://127.0.0.1:5000')
      .replace(/\/$/, '')] *)
Definition API_BASE (env : Env) : jsstring :=
  replaceTrailingSlash
    match REACT_APP_API_URL env with
    | Some u => if isEmpty u then str "http://127.0.0.1:5000" else u
    | None => str "http://127.0.0.1:5000"
    end.

Definition KO_FI_URL : jsstring := str "https://ko-fi.com/nikharbhavsar".

Definition onMount (env : Env) : M unit :=
  trackPageView env (VStr (str "/")).

Definition handleDonateClick (env : Env) : M unit :=
  trackEvent env
    (ArgObject (VStr (str "click_donate")) (VStr (str "support"))
               (VStr (str "kofi_button")) VUndefined) ;;
  emit (WindowOpen KO_FI_URL (str "_blank") (str "noopener,noreferrer")).

Definition handleSubmit (env : Env) (situationText : jsstring) (mode : Mode)
  : M unit :=
  emit PreventDefault ;;
  setError (str "") ;;
  setResult None ;;
  let trimmed := trim situationText in
  if isEmpty trimmed then
    setError (str "Please describe your situation.")
  else
    setLoading true ;;
    let endpoint := endpointOf mode in
    let url := API_BASE env ++ endpoint in
    emit (ConsoleLog [CStr (str "Calling API:"); CStr url; CMode mode]) ;;
    trackEvent env
      (ArgObject (VStr (str "submit_help_request")) (VStr (str "help"))
                 (VStr (modeName mode)) VUndefined) ;;
    tryCatchFinally
      (res <- awaitFetch env url (postJson trimmed) ;;
       (if negb (ok res)
        then throw (ThrownError (VStr (str "API error: " ++ decimal (status res))))
        else ret tt) ;;
       data <- awaitJson res ;;
       setResult (dataResult data) ;;
       hz <- readHazard data ;;
       trackEvent env
         (ArgObject (VStr (str "help_request_success")) (VStr (str "help"))
                    (js_or hz (VStr (str "unknown"))) VUndefined))
      (fun err =>
         emit (ConsoleError [CStr (str "Request failed:"); CErr err]) ;;
         setError (str "Something went wrong. Please try again.") ;;
         trackEvent env
           (ArgObject (VStr (str "help_request_error")) (VStr (str "help"))
                      (js_or (errMessage (engine env) err)
                             (VStr (str "unknown_error")))
                      VUndefined))
      (setLoading false).

Definition handleReset (env : Env) : M unit :=
  setSituationText (str "") ;;
  setResult None ;;
  setError (str "") ;;
  setMode normal ;;
  trackEvent env
    (ArgObject (VStr (str "help_form_reset")) (VStr (str "help"))
               (VStr (str "reset")) VUndefined).

Definition resultMode (st : AppState) : JsVal :=
  js_or (match result st with Some r => resMode r | None => VUndefined end)
        (VStr (modeName (mode st))).

(** [result.guidesUsed?.length > 0 && mode === 'deep' && <span>...</span>]
    inside [result && (...)]; [mode] is the checkbox state. *)
Definition guidesPill (st : AppState) : option jsstring :=
  match result st with
  | None => None
  | Some r =>
      match guidesUsed r with
      | None => None
      | Some keys =>
          if (0 <? List.length keys)%nat
          then if isDeep (mode st)
               then Some (str "Guides: " ++ join (str ", ") keys)
               else None
          else None
      end
  end.

(** The argument of [marked.parse] in the result card:
    [marked.parse(result.guidance || '')]. *)
Definition markedInput (r : GuidanceResult) : JsVal :=
  js_or (guidance r) (VStr (str "")).

Definition submitDisabled (st : AppState) : bool := loading st.
Definition resetDisabled (st : AppState) : bool :=
  loading st && match result st with None => true | Some _ => false end.


(** One event on the rendered component. A disabled control fires
    nothing. *)
Definition dispatch (env : Env) (ev : UiEvent) : M unit :=
  fun st =>
    match ev with
    | Mount => onMount env st
    | Change value => setSituationText value st
    | Toggle checked =>
        if loading st then ret tt st
        else setMode (if checked then deep else normal) st
    | Submit =>
        if submitDisabled st then ret tt st
        else handleSubmit env (situationText st) (mode st) st
    | Reset =>
        if resetDisabled st then ret tt st else handleReset env st
    | DonateClick => handleDonateClick env st
    end.

(** A session in which every request settles before the next event:
    the events handled one after the other, a submission run to its end
    within its event. [liveRun] below lets events in while a request is
    in flight. *)
Fixpoint session (env : Env) (st : AppState) (evs : list UiEvent)
  : list Effect * AppState :=
  match evs with
  | [] => ([], st)
  | ev :: rest =>
      let o := dispatch env ev st in
      let r := session env (final o) rest in
      (trace o ++ fst r, snd r)
  end.

End Rev2.

(** The form's [onSubmit]: the handler closes over the text and the mode
    of the render it belongs to. *)
Definition submit1 (env : Env) (st : AppState) : Out unit :=
  Rev1.handleSubmit env (situationText st) (mode st) st.

Definition submit2 (env : Env) (st : AppState) : Out unit :=
  Rev2.handleSubmit env (situationText st) (mode st) st.

(** The [fetch] calls of a trace, and every call that leaves for the
    network or opens a page. *)
Definition fetches (tr : list Effect) : list (jsstring * RequestInit) :=
  flat_map (fun e => match e with Fetch u i => [(u, i)] | _ => [] end) tr.

Definition isOutbound (e : Effect) : bool :=
  match e with Fetch _ _ | WindowOpen _ _ _ => true | _ => false end.

(** The calls into ga4.js and the [window.gtag] calls. *)
Definition isAnalytics (e : Effect) : bool :=
  match e with
  | Gtag _ _ _ | CallTrackEvent _ | CallTrackPageView _ => true
  | _ => false
  end.

(* ================================================================== *)
(** * The guidance pipeline (backend) *)
(* ================================================================== *)

(** The Flask application (backend/app.py, backend/gemini_client.py,
    backend/guides_map.json) is not among the available sources. The
    definitions of this module are written from the design document;
    each says which part of it it follows. Texts, hazard labels and
    guide keys are byte strings. *)
Module Pipeline.

(** Modelled from the spec: the source tag of a hazard label (the
    backend sources are missing). *)
Inductive Source : Type := rules | ai.

(** Modelled from the spec: the HazardLabel of the data model, a hazard
    identifier with its source tag (backend/app.py is missing). *)
Record HazardLabel : Type := mkLabel {
  labelName : string;
  labelSource : Source
}.

(** Modelled from the spec: the GuideEntry record of the data model
    (backend/guides_map.json is missing): a guide key, its hazard, and
    the optional external file handle with its optional expiry time. *)
Record GuideEntry : Type := mkGuide {
  guideKey : string;
  guideHazard : string;
  externalFileHandle : option string;
  handleExpiry : option N
}.

(** Modelled from the spec: the Guide Catalog snapshot, a pure lookup
    table from a hazard to its ordered guide keys and from a guide key
    to its entry. *)
Record Catalog : Type := mkCatalog {
  guidesByHazard : list (string * list string);
  entries : list GuideEntry
}.

(** Modelled from the spec: the configuration data the design leaves to
    the implementer (the medical keyword list, the ordered rule table,
    the closed hazard taxonomy) together with the catalog snapshot. *)
Record Config : Type := mkConfig {
  medicalKeywords : list string;
  ruleTable : list (string * list string);   (* hazard, trigger patterns *)
  taxonomy : list string;
  catalog : Catalog
}.

(** Modelled from the spec: the reply of the external classification
    capability, "one label or failure". *)
Inductive ClassifierReply : Type :=
| Reply (label : string)        (* the empty reply is [Reply ""] *)
| Malformed
| TimedOut
| TransportError.

(** Modelled from the spec: the reply of the external reasoning
    capability, "guidance text or failure". *)
Inductive ReasoningReply : Type :=
| GuidanceText (text : string)
| ReasoningFailed.

(** Modelled from the spec: the three collaborator interfaces, as
    stubbed responses. *)
Record External : Type := mkExternal {
  classify : string -> ClassifierReply;
  reasonShort : string -> string -> ReasoningReply;                (* text, hazard *)
  reasonWithDocuments : string -> string -> list string -> ReasoningReply
}.

(** Modelled from the spec: what the pipeline writes to its log when a
    fallback is taken (backend/app.py is missing). *)
Inductive LogNote : Type :=
| CatalogNeedsRefresh (hazard : string)
| ClassifierDegraded
| DocumentPathFailed
| ShortFormFailed.

(** Modelled from the spec: what a request does besides computing its
    response, the calls of the external capabilities and the log notes
    (backend/gemini_client.py is missing). *)
Inductive Event : Type :=
| ClassifierCall (text : string)
| ShortFormCall (text hazard : string)
| DocumentCall (text hazard : string) (handles : list string)
| Log (note : LogNote).

Definition isExternalCall (e : Event) : bool :=
  match e with Log _ => false | _ => true end.


Definition externalCalls (log : list Event) : list Event :=
  filter isExternalCall log.


(** A computation with its event log. *)
Definition W (A : Type) : Type := (list Event * A)%type.

Definition wret {A} (a : A) : W A := ([], a).

Definition wbind {A B} (m : W A) (k : A -> W B) : W B :=
  let r := k (snd m) in (fst m ++ fst r, snd r).

Definition tell (e : Event) : W unit := ([e], tt).

Declare Scope pipe_scope.
Delimit Scope pipe_scope with pipe.
Notation "x <~ c1 ;; c2" := (wbind c1 (fun x => c2))
  (at level 100, c1 at next level, right associativity) : pipe_scope.
Notation "c1 ~> c2" := (wbind c1 (fun _ => c2))
  (at level 100, right associativity) : pipe_scope.
Open Scope pipe_scope.

(** Modelled from the spec: the mode of an entry point. *)
Inductive Mode : Type := normal | deep.

(** Modelled from the spec: the GuidanceResult of the data model, the
    response of /api/help and /api/help/deep (backend/app.py is
    missing). *)
Record GuidanceResult : Type := mkResult {
  hazard : string;
  hazardSource : Source;
  guidesUsed : list string;
  canDeepDive : bool;
  guidance : string;
  mode : Mode
}.

(** Modelled from the spec: the outcomes of an endpoint, the success
    shape or an error class (section 6 and 7). *)
Inductive HttpResponse : Type :=
| Ok200 (r : GuidanceResult)
| BadRequest400
| InternalError500.

(** Modelled from the spec: the two distinguished labels of the
    taxonomy. *)
Definition medical_emergency : string := "medical_emergency".
Definition unknown_general : string := "unknown_general".

(** Modelled from the spec: the fixed guidance of the medical response
    (the source text is missing); it tells the user to call emergency
    services. *)
Definition MEDICAL_GUIDANCE : string :=
  "This may be a medical emergency. Call emergency services (911 or your local emergency number) right now.".

(** Modelled from the spec: the hand-authored generic safety steps the
    short-form strategy returns when the external service fails (the
    source text is missing). *)
Definition GENERIC_SAFETY_STEPS : string :=
  "1. Move away from immediate danger. 2. Stay calm and check on the people around you. 3. Call emergency services if anyone is at risk.".

Definition lowerAscii (a : ascii) : ascii :=
  let n := nat_of_ascii a in
  if ((65 <=? n) && (n <=? 90))%nat then ascii_of_nat (n + 32) else a.

Fixpoint lower (s : string) : string :=
  match s with
  | EmptyString => EmptyString
  | String a rest => String (lowerAscii a) (lower rest)
  end.

(** [needle] occurs in [hay]. *)
Fixpoint contains (needle hay : string) : bool :=
  String.prefix needle hay
  || match hay with
     | EmptyString => false
     | String _ rest => contains needle rest
     end.

(** Modelled from the spec: (section 4.1; backend/app.py is missing)
    case-insensitive substring match. *)
Definition mentions (text pattern : string) : bool :=
  contains (lower pattern) (lower text).

(** Modelled from the spec: (section 4.1; backend/app.py is missing)
    "any match wins" over the fixed keyword list. *)
Definition medicalMatch (cfg : Config) (text : string) : bool :=
  existsb (mentions text) (medicalKeywords cfg).

(** Modelled from the spec: (section 4.2; backend/app.py is missing) a
    rule's pattern set matches when one of its trigger patterns occurs
    in the text. *)
Definition ruleMatches (text : string) (patterns : list string) : bool :=
  existsb (mentions text) patterns.

(** Modelled from the spec: (section 4.2; backend/app.py is missing) the
    ordered rule list, first matching rule wins; [None] is the sentinel
    "unknown". *)
Fixpoint ruleClassify (rs : list (string * list string)) (text : string)
  : option string :=
  match rs with
  | [] => None
  | (h, patterns) :: rest =>
      if ruleMatches text patterns then Some h else ruleClassify rest text
  end.

Definition inTaxonomy (cfg : Config) (label : string) : bool :=
  existsb (String.eqb label) (taxonomy cfg).

(** Modelled from the spec: (section 4.3, and the HazardLabel invariant
    of 3; backend/app.py is missing) a reply is kept only when it is a
    non-empty label of the taxonomy other than medical_emergency;
    everything else, failures included, collapses to unknown_general. *)
Definition validLabel (cfg : Config) (label : string) : bool :=
  negb (String.eqb label "")
  && inTaxonomy cfg label
  && negb (String.eqb label medical_emergency).

(** Modelled from the spec: (section 4.3; backend/app.py is missing) the
    hazard a reply of the classifier resolves to. *)
Definition validateReply (cfg : Config) (r : ClassifierReply) : string :=
  match r with
  | Reply label => if validLabel cfg label then label else unknown_general
  | Malformed | TimedOut | TransportError => unknown_general
  end.

Definition replyIsLabel (r : ClassifierReply) : bool :=
  match r with Reply _ => true | _ => false end.

(** Modelled from the spec: (section 4.3; backend/app.py is missing) one
    call of the external classifier, its failures caught and logged. *)
Definition aiClassify (cfg : Config) (ext : External) (text : string)
  : W HazardLabel :=
  tell (ClassifierCall text) ~>
  let r := classify ext text in
  (if replyIsLabel r then wret tt else tell (Log ClassifierDegraded)) ~>
  wret (mkLabel (validateReply cfg r) ai).

(** Modelled from the spec: (section 4.6; backend/app.py is missing)
    classify by rules, then AI fallback. *)
Definition classifyHazard (cfg : Config) (ext : External) (text : string)
  : W HazardLabel :=
  match ruleClassify (ruleTable cfg) text with
  | Some h => wret (mkLabel h rules)
  | None => aiClassify cfg ext text
  end.

Fixpoint lookup {A} (k : string) (l : list (string * A)) : option A :=
  match l with
  | [] => None
  | (k', v) :: rest => if String.eqb k k' then Some v else lookup k rest
  end.

(** Modelled from the spec: (section 4.4; backend/app.py is missing)
    hazard to ordered guide keys; a hazard without configured guides
    resolves to the empty list. *)
Definition resolveGuides (cfg : Config) (hazard : string) : list string :=
  match lookup hazard (guidesByHazard (catalog cfg)) with
  | Some keys => keys
  | None => []
  end.

Definition hasGuides (guides : list string) : bool :=
  match guides with [] => false | _ :: _ => true end.

Fixpoint findEntry (key : string) (es : list GuideEntry) : option GuideEntry :=
  match es with
  | [] => None
  | e :: rest => if String.eqb key (guideKey e) then Some e else findEntry key rest
  end.

(** Modelled from the spec: (section 4.5; backend/app.py is missing) the
    file handle of a guide when it is present and unexpired at time
    [now]; an entry without a recorded expiry does not expire. *)
Definition usableHandle (cfg : Config) (now : N) (key : string) : option string :=
  match findEntry key (entries (catalog cfg)) with
  | None => None
  | Some e =>
      match externalFileHandle e with
      | None => None
      | Some h =>
          match handleExpiry e with
          | None => Some h
          | Some t => if (now <? t)%N then Some h else None
          end
      end
  end.

(** Modelled from the spec: (section 4.5; backend/app.py is missing) the
    usable file handles of the guides of a hazard, in catalog order. *)
Fixpoint usableHandles (cfg : Config) (now : N) (keys : list string)
  : list string :=
  match keys with
  | [] => []
  | k :: rest =>
      match usableHandle cfg now k with
      | Some h => h :: usableHandles cfg now rest
      | None => usableHandles cfg now rest
      end
  end.

(** Modelled from the spec: (section 7; backend/app.py is missing) an
    answer of the reasoning service counts only when it is a non-empty
    text. *)
Definition usableText (r : ReasoningReply) : option string :=
  match r with
  | GuidanceText t => if String.eqb t "" then None else Some t
  | ReasoningFailed => None
  end.

(** Modelled from the spec: (section 4.5, 7; backend/app.py is missing)
    short-form synthesis, the fallback floor: on failure of the external
    service (or an empty answer, which must not be returned as guidance)
    the generic safety steps. *)
Definition shortForm (ext : External) (text hazard : string) : W string :=
  tell (ShortFormCall text hazard) ~>
  match usableText (reasonShort ext text hazard) with
  | Some t => wret t
  | None => tell (Log ShortFormFailed) ~> wret GENERIC_SAFETY_STEPS
  end.

(** Modelled from the spec: (section 4.5; backend/app.py is missing)
    document-informed synthesis with its ordered fallback policy (a) no
    guide, (b) no usable file handle, (c) failed external call. *)
Definition documentInformed (cfg : Config) (ext : External) (now : N)
    (text hazard : string) (guides : list string) : W string :=
  if hasGuides guides then
    match usableHandles cfg now guides with
    | [] => tell (Log (CatalogNeedsRefresh hazard)) ~> shortForm ext text hazard
    | h :: hs =>
        tell (DocumentCall text hazard (h :: hs)) ~>
        match usableText (reasonWithDocuments ext text hazard (h :: hs)) with
        | Some t => wret t
        | None => tell (Log DocumentPathFailed) ~> shortForm ext text hazard
        end
    end
  else shortForm ext text hazard.

(** Modelled from the spec: (section 4.1; backend/app.py is missing) the
    fixed medical response; the mode is that of the entry point. *)
Definition medicalResponse (m : Mode) : GuidanceResult :=
  mkResult medical_emergency rules [] false MEDICAL_GUIDANCE m.

(** Modelled from the spec: (section 4.6; backend/app.py is missing) the
    per-request state machine Start, MedicalCheck, Classify, Resolve,
    Synthesize, Terminal. *)
Inductive Stage : Type :=
| Start
| MedicalCheck
| Classify
| Resolve (label : HazardLabel)
| Synthesize (label : HazardLabel) (guides : list string)
| Terminal (r : GuidanceResult).

(** Modelled from the spec: (section 4.6; backend/app.py is missing) one
    transition of the machine; no stage is visited twice. *)
Definition step (cfg : Config) (ext : External) (now : N) (m : Mode)
    (text : string) (s : Stage) : W Stage :=
  match s with
  | Start => wret MedicalCheck
  | MedicalCheck =>
      if medicalMatch cfg text then wret (Terminal (medicalResponse m))
      else wret Classify
  | Classify =>
      label <~ classifyHazard cfg ext text ;;
      wret (Resolve label)
  | Resolve label =>
      wret (Synthesize label (resolveGuides cfg (labelName label)))
  | Synthesize label guides =>
      g <~ match m with
           | normal => shortForm ext text (labelName label)
           | deep => documentInformed cfg ext now text (labelName label) guides
           end ;;
      wret (Terminal (mkResult (labelName label) (labelSource label) guides
                               (hasGuides guides) g m))
  | Terminal r => wret (Terminal r)
  end.

(** Modelled from the spec: (section 4.6; backend/app.py is missing) the
    machine run for at most [fuel] steps; [None] when no terminal stage
    was reached. *)
Fixpoint exec (cfg : Config) (ext : External) (now : N) (m : Mode)
    (text : string) (fuel : nat) (s : Stage) : W (option GuidanceResult) :=
  match s with
  | Terminal r => wret (Some r)
  | _ =>
      match fuel with
      | O => wret None
      | S fuel' =>
          s' <~ step cfg ext now m text s ;;
          exec cfg ext now m text fuel' s'
      end
  end.

(** Modelled from the spec: (section 4.6; backend/app.py is missing) the
    orchestrator runs the machine from Start; five steps reach a
    terminal stage. *)
Definition orchestrate (cfg : Config) (ext : External) (now : N) (m : Mode)
    (text : string) : W (option GuidanceResult) :=
  exec cfg ext now m text 5 Start.

(** Modelled from the spec: (section 6; backend/app.py is missing) the
    HTTP answer for a run of the orchestrator. *)
Definition respond (r : W (option GuidanceResult)) : W HttpResponse :=
  (fst r, match snd r with Some g => Ok200 g | None => InternalError500 end).

(** Modelled from the spec: (section 6; backend/app.py is missing) POST
    /api/help, 400 when situationText is empty or missing. *)
Definition api_help (cfg : Config) (ext : External) (now : N)
    (situationText : option string) : W HttpResponse :=
  match situationText with
  | None => wret BadRequest400
  | Some text =>
      if String.eqb text "" then wret BadRequest400
      else respond (orchestrate cfg ext now normal text)
  end.

(** Modelled from the spec: (section 6; backend/app.py is missing) POST
    /api/help/deep, whose row of the interface table names only the
    missing field as the 400 case. *)
Definition api_help_deep (cfg : Config) (ext : External) (now : N)
    (situationText : option string) : W HttpResponse :=
  match situationText with
  | None => wret BadRequest400
  | Some text => respond (orchestrate cfg ext now deep text)
  end.

(** Modelled from the spec: a configuration in the shape of the
    examples of the design document and of the README (the rule table
    and backend/guides_map.json are missing), used for concrete runs. *)
Definition sampleCatalog : Catalog :=
  mkCatalog
    [("flood", ["flood_preparedness"; "fema_are_you_ready"]);
     ("wildfire", ["wildfire_preparedness"; "wildfire_toolkit"])]
    [mkGuide "flood_preparedness" "flood" (Some "files/flood-1") (Some 1000%N);
     mkGuide "fema_are_you_ready" "flood" None None;
     mkGuide "wildfire_preparedness" "wildfire" (Some "files/wildfire-1") (Some 500%N);
     mkGuide "wildfire_toolkit" "wildfire" (Some "files/wildfire-2") (Some 500%N)].

Definition sampleConfig : Config :=
  mkConfig
    ["unconscious"; "severe bleeding"; "chest pain"; "choking";
     "heart attack"; "stroke"]
    [("flood", ["flood"; "water is rising"]);
     ("wildfire", ["wildfire"; "smoke"]);
     ("gas_leak", ["smell gas"; "gas leak"]);
     ("vehicle_breakdown", ["broke down"; "breakdown"])]
    ["flood"; "wildfire"; "gas_leak"; "vehicle_breakdown";
     "medical_emergency"; "unknown_general"]
    sampleCatalog.

(** Modelled from the spec: a stub of the collaborators
    (backend/gemini_client.py is missing): the classifier answers with a
    fixed reply, the reasoning services with fixed replies. *)
Definition stub (c : ClassifierReply) (short docs : ReasoningReply) : External :=
  mkExternal (fun _ => c) (fun _ _ => short) (fun _ _ _ => docs).


(** Modelled from the spec: (section 4.5; backend/app.py is missing) the
    document-informed path is unavailable for a hazard and its guides:
    no guide, no usable file handle, or a failed external call. *)
Definition unavailable (cfg : Config) (ext : External) (now : N)
    (text hazard : string) (guides : list string) : Prop :=
  guides = []
  \/ usableHandles cfg now guides = []
  \/ usableText (reasonWithDocuments ext text hazard (usableHandles cfg now guides))
       = None.

(** What two answers are compared on: the hazard and the guides used. *)
Definition hazardAndGuides (r : HttpResponse) : option (string * list string) :=
  match r with
  | Ok200 g => Some (hazard g, guidesUsed g)
  | BadRequest400 | InternalError500 => None
  end.

End Pipeline.

(* ================================================================== *)
(** * Sample inputs *)
(* ================================================================== *)

Definition sampleEngine : Engine :=
  fun site =>
    match site with
    | DestructureNullish => str "Cannot destructure property 'action' of 'undefined'."
    | ReadPropertyOfNull => str "Cannot read properties of null (reading 'hazard')"
    | CallOfNonFunction => str "window.gtag is not a function"
    end.

Definition floodResult : GuidanceResult :=
  mkResult (VStr (str "flood")) (VStr (str "rules"))
           (Some [str "flood_preparedness"; str "fema_are_you_ready"])
           (VBool true)
           (VStr (str "Stay calm. If water is rising, move to higher ground..."))
           (VStr (str "normal")).

(** A backend that answers every request with the flood sample. *)
Definition floodBackend : jsstring -> RequestInit -> FetchOutcome :=
  fun _ _ => FetchResolved (mkResponse true 200 (JsonResolved (DObject floodResult))).

(** A backend whose answer decodes to JSON [null], and one that answers
    503. *)
Definition nullBackend : jsstring -> RequestInit -> FetchOutcome :=
  fun _ _ => FetchResolved (mkResponse true 200 (JsonResolved DNull)).

Definition failingBackend : jsstring -> RequestInit -> FetchOutcome :=
  fun _ _ => FetchResolved (mkResponse false 503 (JsonResolved DNull)).

Definition localEnv : Env :=
  mkEnv (Window true) sampleEngine floodBackend None.

Definition deployedEnv : Env :=
  mkEnv (Window true) sampleEngine floodBackend
        (Some (str "https://emergency-ai-backend.onrender.com/")).

Definition typedState : AppState :=
  mkState (str "  My basement is flooding ") deep false None (str "").

Definition blankState : AppState :=
  mkState (str "   ") normal false None (str "").

(** A flood answer on screen while the checkbox is off. *)
Definition shownState : AppState :=
  mkState (str "My basement is flooding") normal false (Some floodResult) (str "").

(* ================================================================== *)
(** * What analytics may carry *)
(* ================================================================== *)

(** A call with the body of a request blanked: what is left of a trace
    once the one place that carries the text is hidden. *)
Definition withoutBody (e : Effect) : Effect :=
  match e with
  | Fetch u i => Fetch u (mkInit (method i) (headers i) [])
  | _ => e
  end.

(** Two states that differ at most in the text typed, both texts blank
    or both not. *)
Definition sameButText (a b : AppState) : Prop :=
  mode a = mode b /\ loading a = loading b /\ result a = result b
  /\ error a = error b
  /\ isEmpty (trim (situationText a)) = isEmpty (trim (situationText b)).

(** Two events that differ at most in the text typed. *)
Definition sameButTyped (a b : UiEvent) : Prop :=
  match a, b with
  | Change v, Change w => isEmpty (trim v) = isEmpty (trim w)
  | _, _ => a = b
  end.

(** The answers of the backend are held fixed: they do not depend on the
    body of the request. *)
Definition answersFixed (env : Env) : Prop :=
  forall url i j, fetch env url i = fetch env url j.

(** Where the label of an analytics event may come from, [reqs] being
    the requests made so far: the mode, a fixed string, the [hazard]
    field of the answer to one of the requests, or the message of an
    error (of a request that failed, of an answer that could not be
    decoded, the status line the handler builds from an answer, or the
    engine's own TypeError). *)
Inductive LabelSource (env : Env) (reqs : list (jsstring * RequestInit))
  : JsVal -> Prop :=
| FromMode (m : Mode) : LabelSource env reqs (VStr (modeName m))
| FixedLabel (s : string) :
    In s ["reset"; "kofi_button"; "unknown"; "unknown_error"] ->
    LabelSource env reqs (VStr (str s))
| FromHazard url init res r :
    In (url, init) reqs ->
    fetch env url init = FetchResolved res ->
    json res = JsonResolved (DObject r) ->
    LabelSource env reqs (hazard r)
| FromStatus url init res :
    In (url, init) reqs ->
    fetch env url init = FetchResolved res ->
    LabelSource env reqs (VStr (str "API error: " ++ decimal (status res)))
| FromRejection url init e :
    In (url, init) reqs ->
    fetch env url init = FetchRejected e ->
    LabelSource env reqs (errMessage (engine env) e)
| FromJsonError url init res e :
    In (url, init) reqs ->
    fetch env url init = FetchResolved res ->
    json res = JsonRejected e ->
    LabelSource env reqs (errMessage (engine env) e)
| FromEngine (site : TypeErrorSite) :
    LabelSource env reqs (VStr (engine env site)).

(** The action and category pairs of the source. *)
Definition fixedEvents : list (string * string) :=
  [("submit_help_request", "help"); ("help_request_success", "help");
   ("help_request_error", "help"); ("help_form_reset", "help");
   ("click_donate", "support")].

Definition Drawn (env : Env) (reqs : list (jsstring * RequestInit))
    (action category label value : JsVal) : Prop :=
  (exists a c, In (a, c) fixedEvents
               /\ action = VStr (str a) /\ category = VStr (str c))
  /\ LabelSource env reqs label
  /\ value = VUndefined.

(** An analytics call whose arguments are all drawn from the allowed
    sources; calls that are not analytics are not constrained. *)
Definition analyticsOk (env : Env) (reqs : list (jsstring * RequestInit))
    (e : Effect) : Prop :=
  match e with
  | CallTrackEvent (ArgObject action category label value) =>
      Drawn env reqs action category label value
  | CallTrackEvent _ => False
  | CallTrackPageView p => p = VStr (str "/")
  | Gtag c name [(k1, category); (k2, label); (k3, value)] =>
      c = str "event" /\ k1 = str "event_category" /\ k2 = str "event_label"
      /\ k3 = str "value" /\ Drawn env reqs name category label value
  | Gtag c name [(k, p)] =>
      c = str "event" /\ name = VStr (str "page_view")
      /\ k = str "page_path" /\ p = VStr (str "/")
  | Gtag _ _ _ => False
  | _ => True
  end.

(* ================================================================== *)
(** * Observations on traces, events and outcomes *)
(* ================================================================== *)

Definition isGtagCall (e : Effect) : bool :=
  match e with Gtag _ _ _ => true | _ => false end.

(** The [window.open] calls of a trace. *)
Definition windowOpens (tr : list Effect)
  : list (jsstring * jsstring * jsstring) :=
  flat_map (fun e => match e with
                     | WindowOpen u t f => [(u, t, f)]
                     | _ => []
                     end) tr.

(** The [gtag] call a call into ga4.js stands for. *)
Definition toGtag (e : Effect) : list Effect :=
  match e with
  | CallTrackEvent (ArgObject action category label value) =>
      [Gtag (str "event") action
            [(str "event_category", category);
             (str "event_label", label);
             (str "value", value)]]
  | CallTrackPageView path =>
      [Gtag (str "event") (VStr (str "page_view")) [(str "page_path", path)]]
  | _ => []
  end.

Definition isSubmit (ev : UiEvent) : bool :=
  match ev with Submit => true | _ => false end.

Definition isDonateClick (ev : UiEvent) : bool :=
  match ev with DonateClick => true | _ => false end.

(** The object a request ended with, when it ended well: the response
    arrived, was [ok], and decoded to an object. *)
Definition succeeded (o : FetchOutcome) : option GuidanceResult :=
  match o with
  | FetchRejected _ => None
  | FetchResolved res =>
      if ok res
      then match json res with
           | JsonResolved (DObject r) => Some r
           | JsonResolved DNull | JsonRejected _ => None
           end
      else None
  end.

(** How a submission leaves the state [after], from the state [before],
    in each of the ways its request can end: rejected, answered with a
    status that is not [ok], answered with a body that cannot be
    decoded, answered with JSON [null], answered with an object. *)
Definition outcomeCases (o : FetchOutcome) (before after : AppState) : Prop :=
  let failed :=
    mkState (situationText before) (mode before) false None
            (str "Something went wrong. Please try again.") in
  (forall e, o = FetchRejected e -> after = failed)
  /\ (forall res, o = FetchResolved res -> ok res = false -> after = failed)
  /\ (forall res e, o = FetchResolved res -> ok res = true ->
        json res = JsonRejected e -> after = failed)
  /\ (forall res, o = FetchResolved res -> ok res = true ->
        json res = JsonResolved DNull -> after = failed)
  /\ (forall res r, o = FetchResolved res -> ok res = true ->
        json res = JsonResolved (DObject r) ->
        after = mkState (situationText before) (mode before) false (Some r)
                        (str "")).

(** The three texts the error paragraph can hold. *)
Definition errorTexts : list jsstring :=
  [str ""; str "Please describe your situation.";
   str "Something went wrong. Please try again."].

(** What holds between two events of a session: no request in flight,
    the error one of the fixed texts, and no error beside a result. *)
Definition settled (st : AppState) : Prop :=
  loading st = false
  /\ In (error st) errorTexts
  /\ (result st <> None -> error st = str "").

(** A text that neither starts nor ends with white space. *)
Definition wellTrimmed (t : jsstring) : Prop :=
  t <> []
  /\ (forall c, hd_error t = Some c -> isWhiteSpace c = false)
  /\ (forall c, hd_error (rev t) = Some c -> isWhiteSpace c = false).

(** A request to the guidance API as a revision with base [base] makes
    it. *)
Definition guidanceRequest (base : jsstring) (r : jsstring * RequestInit)
  : Prop :=
  exists t,
    snd r = postJson t /\ wellTrimmed t
    /\ (fst r = base ++ str "/api/help" \/ fst r = base ++ str "/api/help/deep").

(** The actions of the calls to [trackEvent] in a trace, in order. *)
Definition trackedActions (tr : list Effect) : list JsVal :=
  flat_map (fun e => match e with
                     | CallTrackEvent (ArgObject action _ _ _) => [action]
                     | _ => []
                     end) tr.

(** A trace without its [console.log] and [console.error] calls. *)
Definition isConsole (e : Effect) : bool :=
  match e with ConsoleLog _ | ConsoleError _ => true | _ => false end.

Definition withoutConsole (tr : list Effect) : list Effect :=
  filter (fun e => negb (isConsole e)) tr.

(** A result whose [guidance] property is missing. *)
Definition bareResult : GuidanceResult :=
  mkResult (VStr (str "flood")) (VStr (str "rules")) None VUndefined
           VUndefined VUndefined.

(** A session state with a deep answer on screen and an error-free
    form. *)
Definition deepShownState : AppState :=
  mkState (str "smoke everywhere") deep false (Some floodResult) (str "").

(* ================================================================== *)
(** * handleSubmit at its awaits *)
(* ================================================================== *)

(** [handleSubmit] is an async function: it runs to [await fetch(...)],
    gives way to other events, resumes when the request settles, runs
    to [await res.json()], gives way again, and resumes to its end. The
    definitions below are the handler cut at these two points; the two
    revisions differ in the API base and in what they write to the
    console. *)
Inductive Revision : Type := First | Second.

Definition apiBase (rev : Revision) (env : Env) : jsstring :=
  match rev with
  | First => Rev1.API_BASE
  | Second => Rev2.API_BASE env
  end.

Definition dispatchOf (rev : Revision) : Env -> UiEvent -> M unit :=
  match rev with
  | First => Rev1.dispatch
  | Second => Rev2.dispatch
  end.

(** Where a [handleSubmit] is suspended. *)
Inductive Suspended : Type :=
| AtFetch (url : jsstring) (init : RequestInit)   (* [await fetch(url, init)] *)
| AtJson (res : Response).                        (* [await res.json()] *)

(** From the start of [handleSubmit] to its early return or to its
    first [await]. *)
Definition submitBegins (rev : Revision) (env : Env)
    (situationText : jsstring) (mode : Mode) : M (option Suspended) :=
  emit PreventDefault ;;
  setError (str "") ;;
  setResult None ;;
  let trimmed := trim situationText in
  if isEmpty trimmed then
    setError (str "Please describe your situation.") ;;
    ret None
  else
    setLoading true ;;
    let endpoint := endpointOf mode in
    let url := apiBase rev env ++ endpoint in
    match rev with
    | First => ret tt
    | Second => emit (ConsoleLog [CStr (str "Calling API:"); CStr url; CMode mode])
    end ;;
    trackEvent env
      (ArgObject (VStr (str "submit_help_request")) (VStr (str "help"))
                 (VStr (modeName mode)) VUndefined) ;;
    emit (Fetch url (postJson trimmed)) ;;
    ret (Some (AtFetch url (postJson trimmed))).

(** The [catch] block. *)
Definition caught (rev : Revision) (env : Env) (err : Thrown) : M unit :=
  emit (ConsoleError match rev with
                     | First => [CErr err]
                     | Second => [CStr (str "Request failed:"); CErr err]
                     end) ;;
  setError (str "Something went wrong. Please try again.") ;;
  trackEvent env
    (ArgObject (VStr (str "help_request_error")) (VStr (str "help"))
               (js_or (errMessage (engine env) err) (VStr (str "unknown_error")))
               VUndefined).

(** The handler resumed where it was suspended: the rest of the [try]
    block up to the next [await] or to its end, under [catch] and
    [finally]. *)
Definition resumes (rev : Revision) (env : Env) (s : Suspended)
  : M (option Suspended) :=
  match s with
  | AtFetch url init =>
      match fetch env url init with
      | FetchRejected e =>
          tryCatchFinally (throw e) (caught rev env) (setLoading false) ;;
          ret None
      | FetchResolved res =>
          if negb (ok res)
          then
            tryCatchFinally
              (throw (ThrownError (VStr (str "API error: " ++ decimal (status res)))))
              (caught rev env) (setLoading false) ;;
            ret None
          else ret (Some (AtJson res))
      end
  | AtJson res =>
      tryCatchFinally
        (data <- awaitJson res ;;
         setResult (dataResult data) ;;
         hz <- readHazard data ;;
         trackEvent env
           (ArgObject (VStr (str "help_request_success")) (VStr (str "help"))
                      (js_or hz (VStr (str "unknown"))) VUndefined))
        (caught rev env) (setLoading false) ;;
      ret None
  end.

(** The pieces run one after the other with nothing in between. *)
Definition runToEnd (rev : Revision) (env : Env) (situationText : jsstring)
    (mode : Mode) : M unit :=
  s1 <- submitBegins rev env situationText mode ;;
  match s1 with
  | None => ret tt
  | Some at1 =>
      s2 <- resumes rev env at1 ;;
      match s2 with
      | None => ret tt
      | Some at2 => resumes rev env at2 ;; ret tt
      end
  end.

(** The component with the handlers that are suspended. *)
Record Live : Type := mkLive {
  ui : AppState;
  inFlight : list Suspended
}.

Definition mounted : Live := mkLive initialState [].

(** An event of the user (or of React), or the [i]-th suspended handler
    being resumed. *)
Inductive LiveEvent : Type :=
| User (ev : UiEvent)
| Resume (i : nat).

(** The suspended handlers after the [i]-th was resumed and ended or
    was suspended again [next]. *)
Definition afterResume (i : nat) (next : option Suspended)
    (l : list Suspended) : list Suspended :=
  firstn i l ++ match next with Some s => [s] | None => [] end ++ skipn (S i) l.

Definition suspension (c : Completion (option Suspended)) : option Suspended :=
  match c with
  | Normal next => next
  | Throw _ => None
  end.

(** One event of a run. The submit button is disabled while [loading];
    every other event is handled as in [dispatch]. *)
Definition liveStep (rev : Revision) (env : Env) (e : LiveEvent) (l : Live)
  : list Effect * Live :=
  match e with
  | User Submit =>
      if loading (ui l) then ([], l)
      else
        let o := submitBegins rev env (situationText (ui l)) (mode (ui l)) (ui l) in
        (trace o,
         mkLive (final o)
                (inFlight l ++ match suspension (completion o) with
                               | Some s => [s]
                               | None => []
                               end))
  | User ev =>
      let o := dispatchOf rev env ev (ui l) in
      (trace o, mkLive (final o) (inFlight l))
  | Resume i =>
      match nth_error (inFlight l) i with
      | None => ([], l)
      | Some s =>
          let o := resumes rev env s (ui l) in
          (trace o,
           mkLive (final o)
                  (afterResume i (suspension (completion o)) (inFlight l)))
      end
  end.

Fixpoint liveRun (rev : Revision) (env : Env) (l : Live) (es : list LiveEvent)
  : list Effect * Live :=
  match es with
  | [] => ([], l)
  | e :: rest =>
      let r1 := liveStep rev env e l in
      let r2 := liveRun rev env (snd r1) rest in
      (fst r1 ++ fst r2, snd r2)
  end.

(** What holds throughout a run: either nothing is in flight, [loading]
    is false, the error is one of the fixed texts and no error stands
    beside a result; or exactly one submission is in flight, [loading]
    is true, the result is null and the error is empty. *)
Definition liveSettled (l : Live) : Prop :=
  (inFlight l = [] /\ settled (ui l))
  \/ (exists s, inFlight l = [s]
                /\ loading (ui l) = true
                /\ result (ui l) = None
                /\ error (ui l) = str "").

(** A backend that answers 200 with the flood sample, the handlers
    being resumed late. *)
Definition lateRun : list LiveEvent :=
  [User Mount; User (Change (str "I smell gas")); User Submit;
   User (Change (str "I smell gas in my kitchen")); User DonateClick;
   User Submit; User Reset; Resume 0; User (Toggle true); Resume 0].

(* ================================================================== *)
(** * Properties of ga4.js and App.js *)
(* ================================================================== *)

Ltac unfold_handler :=
  cbv [submit1 submit2 Rev1.handleSubmit Rev2.handleSubmit
       Rev1.handleReset Rev2.handleReset Rev2.handleDonateClick
       Rev1.onMount Rev2.onMount
       bind ret emit throw call tryCatchFinally
       setError setResult setLoading setMode setSituationText
       trackEvent trackPageView awaitFetch awaitJson readHazard
       ga4.trackEvent ga4.trackPageView
       trace final completion fst snd].

(** Case analysis on everything a submission depends on: the global
    object, and how the request and the decoding of its answer end. *)
Ltac submit_cases env :=
  destruct (host env) as [|[|]];
  destruct (fetch env _ _) as [?e|[[|] ?s [?e|[|?r]]]];
  cbn [app ok status json negb dataResult].

(** Concrete runs. *)
Example trim_sample :
  trim (str "  My basement is flooding ") = str "My basement is flooding".
Proof. reflexivity. Qed.

Example submit2_sample_trace :
  trace (submit2 deployedEnv typedState) =
    [PreventDefault;
     ConsoleLog [CStr (str "Calling API:");
                 CStr (str "https://emergency-ai-backend.onrender.com/api/help/deep");
                 CMode deep];
     CallTrackEvent (ArgObject (VStr (str "submit_help_request")) (VStr (str "help"))
                               (VStr (str "deep")) VUndefined);
     Gtag (str "event") (VStr (str "submit_help_request"))
          [(str "event_category", VStr (str "help"));
           (str "event_label", VStr (str "deep"));
           (str "value", VUndefined)];
     Fetch (str "https://emergency-ai-backend.onrender.com/api/help/deep")
           (postJson (str "My basement is flooding"));
     CallTrackEvent (ArgObject (VStr (str "help_request_success")) (VStr (str "help"))
                               (VStr (str "flood")) VUndefined);
     Gtag (str "event") (VStr (str "help_request_success"))
          [(str "event_category", VStr (str "help"));
           (str "event_label", VStr (str "flood"));
           (str "value", VUndefined)]]
  /\ final (submit2 deployedEnv typedState) =
       mkState (str "  My basement is flooding ") deep false (Some floodResult) (str "").
Proof. split; reflexivity. Qed.

Example submit1_null_answer :
  submit1 (mkEnv NoWindow sampleEngine nullBackend None) typedState =
    mkOut
      [PreventDefault;
       CallTrackEvent (ArgObject (VStr (str "submit_help_request")) (VStr (str "help"))
                                 (VStr (str "deep")) VUndefined);
       Fetch (str "http://127.0.0.1:5000/api/help/deep")
             (postJson (str "My basement is flooding"));
       ConsoleError [CErr (ThrownTypeError ReadPropertyOfNull)];
       CallTrackEvent
         (ArgObject (VStr (str "help_request_error")) (VStr (str "help"))
                    (VStr (str "Cannot read properties of null (reading 'hazard')"))
                    VUndefined)]
      (mkState (str "  My basement is flooding ") deep false None
               (str "Something went wrong. Please try again."))
      (Normal tt).
Proof. reflexivity. Qed.

Example submit1_503_label :
  filter isAnalytics
    (trace (submit1 (mkEnv NoWindow sampleEngine failingBackend None) typedState)) =
    [CallTrackEvent (ArgObject (VStr (str "submit_help_request")) (VStr (str "help"))
                               (VStr (str "deep")) VUndefined);
     CallTrackEvent (ArgObject (VStr (str "help_request_error")) (VStr (str "help"))
                               (VStr (str "API error: 503")) VUndefined)].
Proof. reflexivity. Qed.

Lemma replaceTrailingSlash_snoc (base : jsstring) (c : N) :
  Rev2.replaceTrailingSlash (base ++ [c]) =
    if (c =? 47)%N then base else base ++ [c].
Proof.
  induction base as [|b base IH].
  - reflexivity.
  - change ((b :: base) ++ [c]) with (b :: (base ++ [c])).
    cbn [Rev2.replaceTrailingSlash].
    destruct (base ++ [c]) as [|x rest] eqn:E.
    + destruct base; discriminate.
    + rewrite IH. destruct (c =? 47)%N; reflexivity.
Qed.

Lemma join_cons (sep k : jsstring) (rest : list jsstring) :
  join sep (k :: rest) = k ++ flat_map (fun x => sep ++ x) rest.
Proof.
  revert k. induction rest as [|a rest IH]; intros k.
  - cbn. now rewrite app_nil_r.
  - change (join sep (k :: a :: rest)) with (k ++ sep ++ join sep (a :: rest)).
    rewrite IH. cbn [flat_map]. now rewrite <- !app_assoc.
Qed.

(** Every key sits in the joined text at its own place: after the keys
    before it and before the keys after it. *)
Lemma join_position (sep : jsstring) (before : list jsstring) (k : jsstring)
    (after : list jsstring) :
  join sep (before ++ k :: after) =
    flat_map (fun x => x ++ sep) before ++ k ++ flat_map (fun x => sep ++ x) after.
Proof.
  induction before as [|b before IH].
  - apply join_cons.
  - cbn [app flat_map].
    destruct (before ++ k :: after) as [|x rest] eqn:E.
    + destruct before; discriminate.
    + change (join sep (b :: x :: rest)) with (b ++ sep ++ join sep (x :: rest)).
      rewrite IH. now rewrite <- !app_assoc.
Qed.

Lemma submit1_empty (env : Env) (st : AppState) :
  trim (situationText st) = [] ->
  submit1 env st =
    mkOut [PreventDefault]
          (mkState (situationText st) (mode st) (loading st) None
                   (str "Please describe your situation."))
          (Normal tt).
Proof. intros E. unfold_handler. rewrite E. reflexivity. Qed.

Lemma submit2_empty (env : Env) (st : AppState) :
  trim (situationText st) = [] ->
  submit2 env st =
    mkOut [PreventDefault]
          (mkState (situationText st) (mode st) (loading st) None
                   (str "Please describe your situation."))
          (Normal tt).
Proof. intros E. unfold_handler. rewrite E. reflexivity. Qed.

Lemma submit1_outbound (env : Env) (st : AppState) :
  trim (situationText st) <> [] ->
  filter isOutbound (trace (submit1 env st)) =
    [Fetch (Rev1.API_BASE ++ endpointOf (mode st)) (postJson (trim (situationText st)))].
Proof.
  intros Hne. unfold_handler.
  destruct (trim (situationText st)) as [|c t]; [congruence|].
  cbn [isEmpty]. submit_cases env; reflexivity.
Qed.

Lemma submit2_outbound (env : Env) (st : AppState) :
  trim (situationText st) <> [] ->
  filter isOutbound (trace (submit2 env st)) =
    [Fetch (Rev2.API_BASE env ++ endpointOf (mode st)) (postJson (trim (situationText st)))].
Proof.
  intros Hne. unfold_handler.
  destruct (trim (situationText st)) as [|c t]; [congruence|].
  cbn [isEmpty]. submit_cases env; reflexivity.
Qed.

Lemma fetches_outbound (tr : list Effect) :
  fetches tr = fetches (filter isOutbound tr).
Proof.
  induction tr as [|e tr IH]; [reflexivity|].
  unfold fetches in *.
  destruct e; cbn [filter isOutbound flat_map app]; rewrite IH; reflexivity.
Qed.

(** A submission always ends with [loading] false: the [finally] block
    runs however the request ends. *)
Lemma submit1_not_loading (env : Env) (st : AppState) :
  loading st = false -> loading (final (submit1 env st)) = false.
Proof.
  intros L. unfold_handler.
  destruct (trim (situationText st)) as [|c t]; cbn [isEmpty]; [exact L|].
  submit_cases env; reflexivity.
Qed.

Lemma submit2_not_loading (env : Env) (st : AppState) :
  loading st = false -> loading (final (submit2 env st)) = false.
Proof.
  intros L. unfold_handler.
  destruct (trim (situationText st)) as [|c t]; cbn [isEmpty]; [exact L|].
  submit_cases env; reflexivity.
Qed.

Lemma dispatch1_not_loading (env : Env) (ev : UiEvent) (st : AppState) :
  loading st = false -> loading (final (Rev1.dispatch env ev st)) = false.
Proof.
  intros L. destruct ev; cbn [Rev1.dispatch]; unfold Rev1.submitDisabled, Rev1.resetDisabled;
    rewrite ?L; cbn [andb].
  - unfold_handler. destruct (host env) as [|[|]]; exact L.
  - exact L.
  - exact L.
  - now apply submit1_not_loading.
  - unfold_handler. destruct (host env) as [|[|]]; exact L.
  - exact L.
Qed.

Lemma dispatch2_not_loading (env : Env) (ev : UiEvent) (st : AppState) :
  loading st = false -> loading (final (Rev2.dispatch env ev st)) = false.
Proof.
  intros L. destruct ev; cbn [Rev2.dispatch]; unfold Rev2.submitDisabled, Rev2.resetDisabled;
    rewrite ?L; cbn [andb].
  - unfold_handler. destruct (host env) as [|[|]]; exact L.
  - exact L.
  - exact L.
  - now apply submit2_not_loading.
  - unfold_handler. destruct (host env) as [|[|]]; exact L.
  - unfold_handler. destruct (host env) as [|[|]]; exact L.
Qed.

(** Between two events of a session no request is in flight: the submit
    button is enabled whenever the user can act. *)
Lemma session1_not_loading (env : Env) (evs : list UiEvent) (st : AppState) :
  loading st = false -> loading (snd (Rev1.session env st evs)) = false.
Proof.
  revert st. induction evs as [|ev evs IH]; intros st L; cbn [Rev1.session snd].
  - exact L.
  - apply IH. now apply dispatch1_not_loading.
Qed.

Lemma session2_not_loading (env : Env) (evs : list UiEvent) (st : AppState) :
  loading st = false -> loading (snd (Rev2.session env st evs)) = false.
Proof.
  revert st. induction evs as [|ev evs IH]; intros st L; cbn [Rev2.session snd].
  - exact L.
  - apply IH. now apply dispatch2_not_loading.
Qed.

(** C4. A submission whose trimmed text is not empty makes exactly one
    call that leaves the page, in both revisions: a [fetch] with method
    POST and the JSON body [{situationText: trimmed}], to [/api/help]
    under the API base when the mode is normal and to [/api/help/deep]
    when it is deep. *)
Theorem submit_posts_once (env : Env) (st : AppState) :
  trim (situationText st) <> [] ->
  let init :=
    mkInit (str "POST") [(str "Content-Type", str "application/json")]
           [(str "situationText", VStr (trim (situationText st)))] in
  let path :=
    match mode st with
    | normal => str "/api/help"
    | deep => str "/api/help/deep"
    end in
  filter isOutbound (trace (submit1 env st)) = [Fetch (Rev1.API_BASE ++ path) init]
  /\ filter isOutbound (trace (submit2 env st)) = [Fetch (Rev2.API_BASE env ++ path) init].
Proof.
  intros Hne init path. split.
  - rewrite (submit1_outbound env st Hne). destruct (mode st); reflexivity.
  - rewrite (submit2_outbound env st Hne). destruct (mode st); reflexivity.
Qed.

Lemma submit_posts_once_witness :
  filter isOutbound (trace (submit1 localEnv typedState)) =
    [Fetch (str "http://127.0.0.1:5000/api/help/deep")
           (postJson (str "My basement is flooding"))]
  /\ filter isOutbound (trace (submit2 deployedEnv typedState)) =
    [Fetch (str "https://emergency-ai-backend.onrender.com/api/help/deep")
           (postJson (str "My basement is flooding"))].
Proof.
  split.
  - refine (proj1 (submit_posts_once localEnv typedState _)). vm_compute. discriminate.
  - refine (proj2 (submit_posts_once deployedEnv typedState _)). vm_compute. discriminate.
Defined.

(** C8. A submission whose text trims to the empty string, made while
    no request is in flight, makes no request and no analytics call at
    all; it sets the error message, leaves the result null and leaves
    [loading] false. Both revisions. *)
Theorem empty_submission_stays_local (env : Env) (st : AppState) :
  trim (situationText st) = [] ->
  loading st = false ->
  (fetches (trace (submit1 env st)) = []
   /\ filter isAnalytics (trace (submit1 env st)) = []
   /\ error (final (submit1 env st)) = str "Please describe your situation."
   /\ result (final (submit1 env st)) = None
   /\ loading (final (submit1 env st)) = false)
  /\
  (fetches (trace (submit2 env st)) = []
   /\ filter isAnalytics (trace (submit2 env st)) = []
   /\ error (final (submit2 env st)) = str "Please describe your situation."
   /\ result (final (submit2 env st)) = None
   /\ loading (final (submit2 env st)) = false).
Proof.
  intros E L.
  rewrite (submit1_empty env st E), (submit2_empty env st E).
  cbn [trace final error result loading].
  repeat split; try reflexivity; exact L.
Qed.

Lemma empty_submission_stays_local_witness :
  fetches (trace (submit1 localEnv blankState)) = []
  /\ filter isAnalytics (trace (submit2 localEnv blankState)) = [].
Proof.
  pose proof (empty_submission_stays_local localEnv blankState eq_refl eq_refl)
    as [[F1 _] [_ [A2 _]]].
  exact (conj F1 A2).
Defined.





Example gtag_that_throws :
  ga4_full.trackPageView (WindowObject throwingGtag) (VStr (str "/"))
  = ([Gtag (str "event") (VStr (str "page_view")) [(str "page_path", VStr (str "/"))]],
     Throw (ThrownError (VStr (str "blocked"))))
  /\ ga4_full.trackPageView (WindowObject queueingGtag) (VStr (str "/"))
  = ([Gtag (str "event") (VStr (str "page_view")) [(str "page_path", VStr (str "/"))]],
     Normal tt)
  /\ ga4_full.trackPageView WindowNull (VStr (str "/"))
  = ([], Throw (ThrownTypeError ReadPropertyOfNull)).
Proof. repeat split. Qed.

(** C10. With [REACT_APP_API_URL] unset both revisions request the same
    URL, [http://127.0.0.1:5000/api/help] in normal mode and
    [http://127.0.0.1:5000/api/help/deep] in deep mode; the second
    revision removes one trailing slash, and no more, from a configured
    base before it appends the endpoint path. *)
Theorem api_base_revisions (env : Env) (st : AppState) :
  trim (situationText st) <> [] ->
  (REACT_APP_API_URL env = None ->
     map fst (fetches (trace (submit1 env st))) =
       [match mode st with
        | normal => str "http://127.0.0.1:5000/api/help"
        | deep => str "http://127.0.0.1:5000/api/help/deep"
        end]
     /\ map fst (fetches (trace (submit2 env st))) =
          map fst (fetches (trace (submit1 env st))))
  /\ (forall (base : jsstring) (c : N),
        REACT_APP_API_URL env = Some (base ++ [c]) ->
        Rev2.API_BASE env = (if (c =? 47)%N then base else base ++ [c])
        /\ map fst (fetches (trace (submit2 env st))) =
             [Rev2.API_BASE env ++ endpointOf (mode st)]).
Proof.
  intros Hne.
  rewrite (fetches_outbound (trace (submit1 env st))), (submit1_outbound env st Hne).
  rewrite (fetches_outbound (trace (submit2 env st))), (submit2_outbound env st Hne).
  cbn [fetches flat_map app map fst].
  split.
  - intros U. unfold Rev2.API_BASE. rewrite U.
    destruct (mode st); split; reflexivity.
  - intros base c U. split; [|reflexivity].
    unfold Rev2.API_BASE. rewrite U.
    destruct (base ++ [c]) as [|x rest] eqn:E.
    + destruct base; discriminate.
    + cbn [isEmpty]. rewrite <- E. apply replaceTrailingSlash_snoc.
Qed.

Lemma api_base_revisions_witness :
  map fst (fetches (trace (submit2 localEnv typedState))) =
    map fst (fetches (trace (submit1 localEnv typedState)))
  /\ Rev2.API_BASE deployedEnv = str "https://emergency-ai-backend.onrender.com".
Proof.
  split.
  - refine (proj2 (proj1 (api_base_revisions localEnv typedState _) eq_refl)).
    vm_compute. discriminate.
  - refine (proj1 (proj2 (api_base_revisions deployedEnv typedState _)
                     (str "https://emergency-ai-backend.onrender.com") 47%N eq_refl)).
    vm_compute. discriminate.
Defined.

(** C7, as stated, fails in the second revision: with a result on
    screen whose [guidesUsed] holds two keys and the checkbox off, no
    Guides pill is rendered. *)
Lemma guides_pill_hidden_in_normal_mode :
  result shownState = Some floodResult
  /\ guidesUsed floodResult = Some [str "flood_preparedness"; str "fema_are_you_ready"]
  /\ mode shownState = normal
  /\ Rev2.guidesPill shownState = None.
Proof. repeat split; reflexivity. Qed.

(** C7, amended. For a rendered result whose [guidesUsed] is not empty
    the first revision shows the Guides pill whatever the selected mode,
    the second revision shows it exactly when the selected mode is deep;
    the pill lists the keys joined by [", "], every key at its own place
    in the order of [guidesUsed]. *)
Theorem guides_pill_lists_keys_in_order (st : AppState) (r : GuidanceResult)
    (keys : list jsstring) :
  result st = Some r ->
  guidesUsed r = Some keys ->
  keys <> [] ->
  Rev1.guidesPill st = Some (str "Guides: " ++ join (str ", ") keys)
  /\ Rev2.guidesPill st =
       (if isDeep (mode st)
        then Some (str "Guides: " ++ join (str ", ") keys)
        else None)
  /\ (forall (before : list jsstring) (k : jsstring) (after : list jsstring),
        keys = before ++ k :: after ->
        join (str ", ") keys =
          flat_map (fun x => x ++ str ", ") before ++ k
          ++ flat_map (fun x => str ", " ++ x) after).
Proof.
  intros R G Hne. unfold Rev1.guidesPill, Rev2.guidesPill. rewrite R, G.
  destruct keys as [|k0 keys]; [congruence|].
  cbn [List.length Nat.ltb Nat.leb].
  repeat split.
  intros before k after ->. apply join_position.
Qed.

Lemma guides_pill_lists_keys_in_order_witness :
  Rev1.guidesPill shownState =
    Some (str "Guides: flood_preparedness, fema_are_you_ready")
  /\ Rev2.guidesPill shownState = None.
Proof.
  pose proof (guides_pill_lists_keys_in_order shownState floodResult
                [str "flood_preparedness"; str "fema_are_you_ready"]
                eq_refl eq_refl ltac:(discriminate)) as [P1 [P2 _]].
  exact (conj P1 P2).
Defined.

(* ------------------------------------------------------------------ *)
(** ** Analytics and the text typed *)
(* ------------------------------------------------------------------ *)

Lemma drawn_fixed (env : Env) (reqs : list (jsstring * RequestInit))
    (a c : string) (l : JsVal) :
  In (a, c) fixedEvents -> LabelSource env reqs l ->
  Drawn env reqs (VStr (str a)) (VStr (str c)) l VUndefined.
Proof. intros I L. repeat split; eauto. Qed.

Lemma js_or_source (env : Env) (reqs : list (jsstring * RequestInit))
    (v : JsVal) (s : string) :
  LabelSource env reqs v ->
  In s ["reset"; "kofi_button"; "unknown"; "unknown_error"] ->
  LabelSource env reqs (js_or v (VStr (str s))).
Proof.
  intros L I. unfold js_or. destruct (truthy v); [exact L|now constructor].
Qed.

Lemma LabelSource_mono (env : Env) (reqs reqs' : list (jsstring * RequestInit))
    (l : JsVal) :
  incl reqs reqs' -> LabelSource env reqs l -> LabelSource env reqs' l.
Proof.
  intros I L. destruct L.
  - apply FromMode.
  - now apply FixedLabel.
  - eapply FromHazard; eauto.
  - eapply FromStatus; eauto.
  - eapply FromRejection; eauto.
  - eapply FromJsonError; eauto.
  - apply FromEngine.
Qed.

Lemma analyticsOk_mono (env : Env) (reqs reqs' : list (jsstring * RequestInit))
    (e : Effect) :
  incl reqs reqs' -> analyticsOk env reqs e -> analyticsOk env reqs' e.
Proof.
  intros I. destruct e as [c name params|[| |a c l v]| | | | | |];
    cbn [analyticsOk]; try tauto.
  - destruct params as [|[k1 v1] [|[k2 v2] [|[k3 v3] [|]]]]; try tauto.
    intros (E1 & E2 & E3 & E4 & D & L & V). repeat split; try assumption.
    eapply LabelSource_mono; eassumption.
  - intros (D & L & V). repeat split; try assumption.
    eapply LabelSource_mono; eassumption.
Qed.

Ltac request_made := cbn [fetches flat_map app In]; tauto.

Ltac label_source :=
  first
    [ apply FromMode
    | apply FixedLabel; cbn; tauto
    | apply FromEngine
    | eapply FromRejection; [|eassumption]; request_made
    | eapply FromJsonError; [|eassumption|reflexivity]; request_made
    | eapply FromHazard; [|eassumption|reflexivity]; request_made
    | match goal with
      | F : fetch _ _ _ = FetchResolved _ |- _ =>
          refine (FromStatus _ _ _ _ _ _ F); request_made
      end ].

Ltac analytics_ok :=
  repeat (apply Forall_cons || apply Forall_nil); cbn [analyticsOk];
  try exact I; repeat (split; [reflexivity|]); try reflexivity;
  (apply drawn_fixed;
   [ cbn; tauto
   | first [ label_source
           | apply js_or_source; [cbn [errMessage]; label_source | cbn; tauto] ] ]).

Lemma submit1_analytics (env : Env) (st : AppState) :
  Forall (analyticsOk env (fetches (trace (submit1 env st))))
         (trace (submit1 env st)).
Proof.
  unfold_handler.
  destruct (trim (situationText st)) as [|c t] eqn:Et; cbn [isEmpty].
  - repeat constructor.
  - destruct (host env) as [|[|]];
    destruct (fetch env _ _) as [e|[[|] s [e|[|r]]]] eqn:F;
    cbn [app ok status json negb dataResult].
    all: analytics_ok.
Qed.

Lemma submit2_analytics (env : Env) (st : AppState) :
  Forall (analyticsOk env (fetches (trace (submit2 env st))))
         (trace (submit2 env st)).
Proof.
  unfold_handler.
  destruct (trim (situationText st)) as [|c t] eqn:Et; cbn [isEmpty].
  - repeat constructor.
  - destruct (host env) as [|[|]];
    destruct (fetch env _ _) as [e|[[|] s [e|[|r]]]] eqn:F;
    cbn [app ok status json negb dataResult].
    all: analytics_ok.
Qed.

Lemma dispatch1_analytics (env : Env) (ev : UiEvent) (st : AppState) :
  Forall (analyticsOk env (fetches (trace (Rev1.dispatch env ev st))))
         (trace (Rev1.dispatch env ev st)).
Proof.
  destruct ev; cbn [Rev1.dispatch].
  - unfold_handler. destruct (host env) as [|[|]]; analytics_ok.
  - constructor.
  - destruct (loading st); constructor.
  - destruct (Rev1.submitDisabled st); [constructor|apply submit1_analytics].
  - destruct (Rev1.resetDisabled st); [constructor|].
    unfold_handler. destruct (host env) as [|[|]]; analytics_ok.
  - constructor.
Qed.

Lemma dispatch2_analytics (env : Env) (ev : UiEvent) (st : AppState) :
  Forall (analyticsOk env (fetches (trace (Rev2.dispatch env ev st))))
         (trace (Rev2.dispatch env ev st)).
Proof.
  destruct ev; cbn [Rev2.dispatch].
  - unfold_handler. destruct (host env) as [|[|]]; analytics_ok.
  - constructor.
  - destruct (loading st); constructor.
  - destruct (Rev2.submitDisabled st); [constructor|apply submit2_analytics].
  - destruct (Rev2.resetDisabled st); [constructor|].
    unfold_handler. destruct (host env) as [|[|]]; analytics_ok.
  - unfold_handler. destruct (host env) as [|[|]]; analytics_ok.
Qed.

Lemma fetches_app (a b : list Effect) :
  fetches (a ++ b) = fetches a ++ fetches b.
Proof. unfold fetches. apply flat_map_app. Qed.

Lemma analytics_app (env : Env) (a b : list Effect) :
  Forall (analyticsOk env (fetches a)) a ->
  Forall (analyticsOk env (fetches b)) b ->
  Forall (analyticsOk env (fetches (a ++ b))) (a ++ b).
Proof.
  intros Ha Hb. rewrite fetches_app. apply Forall_app. split.
  - eapply Forall_impl; [|exact Ha].
    intros e. apply analyticsOk_mono, incl_appl, incl_refl.
  - eapply Forall_impl; [|exact Hb].
    intros e. apply analyticsOk_mono, incl_appr, incl_refl.
Qed.

Lemma session1_analytics (env : Env) (evs : list UiEvent) (st : AppState) :
  Forall (analyticsOk env (fetches (fst (Rev1.session env st evs))))
         (fst (Rev1.session env st evs)).
Proof.
  revert st. induction evs as [|ev evs IH]; intros st; cbn [Rev1.session fst].
  - constructor.
  - apply analytics_app; [apply dispatch1_analytics|apply IH].
Qed.

Lemma session2_analytics (env : Env) (evs : list UiEvent) (st : AppState) :
  Forall (analyticsOk env (fetches (fst (Rev2.session env st evs))))
         (fst (Rev2.session env st evs)).
Proof.
  revert st. induction evs as [|ev evs IH]; intros st; cbn [Rev2.session fst].
  - constructor.
  - apply analytics_app; [apply dispatch2_analytics|apply IH].
Qed.

Ltac same_but_text E1 E2 :=
  unfold sameButText; cbn [mode loading result error situationText];
  rewrite ?E1, ?E2; repeat split; reflexivity.

Lemma submit1_blind (env : Env) (st st' : AppState) :
  answersFixed env -> sameButText st st' ->
  map withoutBody (trace (submit1 env st)) = map withoutBody (trace (submit1 env st'))
  /\ sameButText (final (submit1 env st)) (final (submit1 env st')).
Proof.
  intros HF (Hm & Hl & Hr & He & Ht).
  destruct st as [t1 m1 l1 r1 e1], st' as [t2 m2 l2 r2 e2].
  cbn [mode loading result error situationText] in *. subst.
  unfold_handler. cbn [mode loading result error situationText].
  destruct (trim t1) as [|c1 u1] eqn:E1, (trim t2) as [|c2 u2] eqn:E2;
    cbn [isEmpty] in *; try discriminate.
  - split; [reflexivity|same_but_text E1 E2].
  - rewrite (HF _ (postJson (c1 :: u1)) (postJson (c2 :: u2))).
    submit_cases env; (split; [reflexivity|same_but_text E1 E2]).
Qed.

Lemma submit2_blind (env : Env) (st st' : AppState) :
  answersFixed env -> sameButText st st' ->
  map withoutBody (trace (submit2 env st)) = map withoutBody (trace (submit2 env st'))
  /\ sameButText (final (submit2 env st)) (final (submit2 env st')).
Proof.
  intros HF (Hm & Hl & Hr & He & Ht).
  destruct st as [t1 m1 l1 r1 e1], st' as [t2 m2 l2 r2 e2].
  cbn [mode loading result error situationText] in *. subst.
  unfold_handler. cbn [mode loading result error situationText].
  destruct (trim t1) as [|c1 u1] eqn:E1, (trim t2) as [|c2 u2] eqn:E2;
    cbn [isEmpty] in *; try discriminate.
  - split; [reflexivity|same_but_text E1 E2].
  - rewrite (HF _ (postJson (c1 :: u1)) (postJson (c2 :: u2))).
    submit_cases env; (split; [reflexivity|same_but_text E1 E2]).
Qed.

Lemma dispatch1_blind (env : Env) (ev ev' : UiEvent) (st st' : AppState) :
  answersFixed env -> sameButText st st' -> sameButTyped ev ev' ->
  map withoutBody (trace (Rev1.dispatch env ev st))
    = map withoutBody (trace (Rev1.dispatch env ev' st'))
  /\ sameButText (final (Rev1.dispatch env ev st)) (final (Rev1.dispatch env ev' st')).
Proof.
  intros HF HS HE.
  destruct ev, ev'; cbn [sameButTyped] in HE; try discriminate;
    try (injection HE as <-); cbn [Rev1.dispatch].
  - destruct HS as (Hm & Hl & Hr & He & Ht).
    unfold_handler. destruct (host env) as [|[|]]; repeat split; assumption.
  - destruct HS as (Hm & Hl & Hr & He & Ht).
    unfold_handler. unfold sameButText.
    cbn [mode loading result error situationText]. repeat split; assumption.
  - destruct HS as (Hm & Hl & Hr & He & Ht). rewrite <- Hl.
    destruct (loading st) eqn:L; unfold_handler; unfold sameButText;
      cbn [mode loading result error situationText]; repeat split;
      congruence.
  - unfold Rev1.submitDisabled. pose proof HS as (_ & Hl & _). rewrite <- Hl.
    destruct (loading st).
    + split; [reflexivity|exact HS].
    + exact (submit1_blind env st st' HF HS).
  - destruct HS as (Hm & Hl & Hr & He & Ht).
    unfold Rev1.resetDisabled. rewrite <- Hl, <- Hr.
    destruct (loading st && _).
    + repeat split; assumption.
    + unfold_handler. unfold sameButText.
      cbn [mode loading result error situationText].
      destruct (host env) as [|[|]]; repeat split; assumption.
  - split; [reflexivity|exact HS].
Qed.

Lemma dispatch2_blind (env : Env) (ev ev' : UiEvent) (st st' : AppState) :
  answersFixed env -> sameButText st st' -> sameButTyped ev ev' ->
  map withoutBody (trace (Rev2.dispatch env ev st))
    = map withoutBody (trace (Rev2.dispatch env ev' st'))
  /\ sameButText (final (Rev2.dispatch env ev st)) (final (Rev2.dispatch env ev' st')).
Proof.
  intros HF HS HE.
  destruct ev, ev'; cbn [sameButTyped] in HE; try discriminate;
    try (injection HE as <-); cbn [Rev2.dispatch].
  - destruct HS as (Hm & Hl & Hr & He & Ht).
    unfold_handler. destruct (host env) as [|[|]]; repeat split; assumption.
  - destruct HS as (Hm & Hl & Hr & He & Ht).
    unfold_handler. unfold sameButText.
    cbn [mode loading result error situationText]. repeat split; assumption.
  - destruct HS as (Hm & Hl & Hr & He & Ht). rewrite <- Hl.
    destruct (loading st) eqn:L; unfold_handler; unfold sameButText;
      cbn [mode loading result error situationText]; repeat split;
      congruence.
  - unfold Rev2.submitDisabled. pose proof HS as (_ & Hl & _). rewrite <- Hl.
    destruct (loading st).
    + split; [reflexivity|exact HS].
    + exact (submit2_blind env st st' HF HS).
  - destruct HS as (Hm & Hl & Hr & He & Ht).
    unfold Rev2.resetDisabled. rewrite <- Hl, <- Hr.
    destruct (loading st && _).
    + repeat split; assumption.
    + unfold_handler. unfold sameButText.
      cbn [mode loading result error situationText].
      destruct (host env) as [|[|]]; repeat split; assumption.
  - destruct HS as (Hm & Hl & Hr & He & Ht).
    unfold_handler. destruct (host env) as [|[|]]; repeat split; assumption.
Qed.

Lemma session1_blind (env : Env) (evs evs' : list UiEvent) :
  answersFixed env -> Forall2 sameButTyped evs evs' ->
  forall st st', sameButText st st' ->
  map withoutBody (fst (Rev1.session env st evs))
    = map withoutBody (fst (Rev1.session env st' evs')).
Proof.
  intros HF H2. induction H2 as [|ev ev' evs evs' HE _ IH]; intros st st' HS.
  - reflexivity.
  - cbn [Rev1.session fst]. rewrite !map_app.
    destruct (dispatch1_blind env ev ev' st st' HF HS HE) as [T S].
    rewrite T. f_equal. now apply IH.
Qed.

Lemma session2_blind (env : Env) (evs evs' : list UiEvent) :
  answersFixed env -> Forall2 sameButTyped evs evs' ->
  forall st st', sameButText st st' ->
  map withoutBody (fst (Rev2.session env st evs))
    = map withoutBody (fst (Rev2.session env st' evs')).
Proof.
  intros HF H2. induction H2 as [|ev ev' evs evs' HE _ IH]; intros st st' HS.
  - reflexivity.
  - cbn [Rev2.session fst]. rewrite !map_app.
    destruct (dispatch2_blind env ev ev' st st' HF HS HE) as [T S].
    rewrite T. f_equal. now apply IH.
Qed.

(** C5. In every session of either revision each analytics call (the
    calls into ga4.js and the [gtag] calls they make) has a fixed action
    and category and a label drawn from the mode, a fixed string, the
    [hazard] field of the answer to a request of the session, or an
    error message; and with the
    answers of the backend held fixed, two sessions that differ only in
    the text typed make the same calls with the same arguments
    everywhere but in the body of the requests to the guidance API. *)
Theorem analytics_never_carry_the_text (env : Env) (st st' : AppState)
    (evs evs' : list UiEvent) :
  answersFixed env ->
  sameButText st st' ->
  Forall2 sameButTyped evs evs' ->
  (Forall (analyticsOk env (fetches (fst (Rev1.session env st evs))))
          (fst (Rev1.session env st evs))
   /\ map withoutBody (fst (Rev1.session env st evs))
        = map withoutBody (fst (Rev1.session env st' evs')))
  /\
  (Forall (analyticsOk env (fetches (fst (Rev2.session env st evs))))
          (fst (Rev2.session env st evs))
   /\ map withoutBody (fst (Rev2.session env st evs))
        = map withoutBody (fst (Rev2.session env st' evs'))).
Proof.
  intros HF HS HE. repeat split.
  - apply session1_analytics.
  - now apply session1_blind.
  - apply session2_analytics.
  - now apply session2_blind.
Qed.

Lemma analytics_never_carry_the_text_witness :
  map withoutBody
      (fst (Rev2.session localEnv initialState
              [Mount; Change (str "I smell gas in my kitchen"); Toggle true; Submit]))
  = map withoutBody
      (fst (Rev2.session localEnv initialState
              [Mount; Change (str "My car broke down"); Toggle true; Submit])).
Proof.
  refine (proj2 (proj2 (analytics_never_carry_the_text localEnv initialState initialState
            [Mount; Change (str "I smell gas in my kitchen"); Toggle true; Submit]
            [Mount; Change (str "My car broke down"); Toggle true; Submit] _ _ _))).
  - intros url i j. reflexivity.
  - repeat split.
  - repeat constructor.
Defined.

(* ================================================================== *)
(** * Properties of the guidance pipeline *)
(* ================================================================== *)

Section PipelineFacts.

Import Pipeline.

Ltac run_machine :=
  unfold orchestrate;
  cbn [exec step];
  unfold classifyHazard, aiClassify, wbind, wret, tell;
  cbn [fst snd app].

(** Concrete runs; the catalog's flood handle expires at time 1000. *)
Example flood_by_rule :
  api_help sampleConfig
    (stub (Reply "wildfire") (GuidanceText "Move to higher ground.") ReasoningFailed)
    10 (Some "My basement is flooding")
  = ([ShortFormCall "My basement is flooding" "flood"],
     Ok200 (mkResult "flood" rules ["flood_preparedness"; "fema_are_you_ready"]
                     true "Move to higher ground." normal)).
Proof. reflexivity. Qed.

Example deep_with_document :
  api_help_deep sampleConfig
    (stub Malformed (GuidanceText "Move to higher ground.")
          (GuidanceText "Per the flood guide: shut off power, then move up."))
    10 (Some "My basement is flooding")
  = ([DocumentCall "My basement is flooding" "flood" ["files/flood-1"]],
     Ok200 (mkResult "flood" rules ["flood_preparedness"; "fema_are_you_ready"]
                     true "Per the flood guide: shut off power, then move up." deep)).
Proof. reflexivity. Qed.

Example deep_with_expired_handle :
  api_help_deep sampleConfig
    (stub Malformed (GuidanceText "Move to higher ground.")
          (GuidanceText "Per the flood guide: shut off power, then move up."))
    2000 (Some "My basement is flooding")
  = ([Log (CatalogNeedsRefresh "flood");
      ShortFormCall "My basement is flooding" "flood"],
     Ok200 (mkResult "flood" rules ["flood_preparedness"; "fema_are_you_ready"]
                     true "Move to higher ground." deep)).
Proof. reflexivity. Qed.

Example outage_still_answers :
  api_help_deep sampleConfig (stub TransportError ReasoningFailed ReasoningFailed)
    10 (Some "There is a swarm of bees in my attic")
  = ([ClassifierCall "There is a swarm of bees in my attic";
      Log ClassifierDegraded;
      ShortFormCall "There is a swarm of bees in my attic" "unknown_general";
      Log ShortFormFailed],
     Ok200 (mkResult "unknown_general" ai [] false GENERIC_SAFETY_STEPS deep)).
Proof. reflexivity. Qed.

Lemma usableText_nonempty (r : ReasoningReply) (t : string) :
  usableText r = Some t -> t <> "".
Proof.
  destruct r as [t0|]; cbn [usableText]; [|discriminate].
  destruct (String.eqb t0 "") eqn:E; [discriminate|].
  intros [= <-]. now apply String.eqb_neq.
Qed.

Lemma shortForm_nonempty (ext : External) (text hazard : string) :
  snd (shortForm ext text hazard) <> "".
Proof.
  unfold shortForm, wbind, wret, tell.
  destruct (usableText (reasonShort ext text hazard)) as [t|] eqn:E; cbn [snd].
  - exact (usableText_nonempty _ _ E).
  - discriminate.
Qed.

Lemma documentInformed_nonempty (cfg : Config) (ext : External) (now : N)
    (text hazard : string) (guides : list string) :
  snd (documentInformed cfg ext now text hazard guides) <> "".
Proof.
  unfold documentInformed.
  destruct (hasGuides guides); [|apply shortForm_nonempty].
  destruct (usableHandles cfg now guides) as [|h hs].
  - unfold wbind. cbn [snd]. apply shortForm_nonempty.
  - unfold wbind, tell. cbn [snd].
    destruct (usableText _) as [t|] eqn:E; cbn [snd].
    + exact (usableText_nonempty _ _ E).
    + apply shortForm_nonempty.
Qed.

(** Where the document-informed path is unavailable the guidance is the
    one short-form synthesis gives. *)
Lemma documentInformed_fallback (cfg : Config) (ext : External) (now : N)
    (text hazard : string) (guides : list string) :
  unavailable cfg ext now text hazard guides ->
  snd (documentInformed cfg ext now text hazard guides)
    = snd (shortForm ext text hazard).
Proof.
  unfold unavailable, documentInformed.
  intros [-> | [U | U]].
  - reflexivity.
  - rewrite U. destruct (hasGuides guides); reflexivity.
  - destruct (hasGuides guides); [|reflexivity].
    destruct (usableHandles cfg now guides) as [|h hs]; [reflexivity|].
    unfold wbind, tell. cbn [snd]. rewrite U. reflexivity.
Qed.

(** The first matching rule wins: a hazard is returned exactly when its
    rule matches and no rule before it does. *)
Lemma ruleClassify_first_match (rs : list (string * list string))
    (text h : string) :
  ruleClassify rs text = Some h <->
  exists before patterns after,
    rs = before ++ (h, patterns) :: after
    /\ ruleMatches text patterns = true
    /\ Forall (fun r => ruleMatches text (snd r) = false) before.
Proof.
  induction rs as [|[h0 p0] rs IH]; cbn [ruleClassify].
  - split; [discriminate|].
    intros (before & patterns & after & E & _). destruct before; discriminate.
  - destruct (ruleMatches text p0) eqn:M.
    + split.
      * intros [= <-]. exists [], p0, rs. repeat split; [exact M|constructor].
      * intros (before & patterns & after & E & Mp & Fb).
        destruct before as [|b before]; cbn [app] in E; inversion E; subst.
        -- reflexivity.
        -- inversion Fb as [|? ? Hb _]; subst. cbn [snd] in Hb. congruence.
    + rewrite IH. split.
      * intros (before & patterns & after & -> & Mp & Fb).
        exists ((h0, p0) :: before), patterns, after.
        repeat split; [exact Mp|constructor; [exact M|exact Fb]].
      * intros (before & patterns & after & E & Mp & Fb).
        destruct before as [|b before]; cbn [app] in E; inversion E; subst.
        -- congruence.
        -- inversion Fb; subst.
           exists before, patterns, after. repeat split; assumption.
Qed.





Lemma exec_terminal (cfg : Config) (ext : External) (now : N) (m : Mode)
    (text : string) (fuel : nat) (r : GuidanceResult) :
  exec cfg ext now m text fuel (Terminal r) = wret (Some r).
Proof. destruct fuel; reflexivity. Qed.

(** One step of the machine from a stage that is not terminal. *)
Ltac advance :=
  match goal with
  | |- context [exec ?c ?e ?n ?m ?t (S ?f) ?s] =>
      change (exec c e n m t (S f) s)
        with (wbind (step c e n m t s) (exec c e n m t f));
      cbn [step]
  end.

Ltac settle := cbv [wbind wret]; cbn [fst snd app].

(** The run of the machine from Start, stage by stage. *)
Lemma orchestrate_unfold (cfg : Config) (ext : External) (now : N) (m : Mode)
    (text : string) :
  orchestrate cfg ext now m text =
    if medicalMatch cfg text then ([], Some (medicalResponse m))
    else
      let c := classifyHazard cfg ext text in
      let guides := resolveGuides cfg (labelName (snd c)) in
      let g := match m with
               | normal => shortForm ext text (labelName (snd c))
               | deep => documentInformed cfg ext now text (labelName (snd c)) guides
               end in
      (fst c ++ fst g,
       Some (mkResult (labelName (snd c)) (labelSource (snd c)) guides
                      (hasGuides guides) (snd g) m)).
Proof.
  unfold orchestrate.
  advance. settle.
  advance. destruct (medicalMatch cfg text); settle.
  - rewrite exec_terminal. reflexivity.
  - advance. destruct (classifyHazard cfg ext text) as [lc label]. settle.
    advance. settle.
    advance.
    destruct (match m with
              | normal => shortForm ext text (labelName label)
              | deep => documentInformed cfg ext now text (labelName label)
                          (resolveGuides cfg (labelName label))
              end) as [lg g].
    settle. rewrite exec_terminal. settle. rewrite !app_nil_r.
    reflexivity.
Qed.


(** C1. A text that matches a medical keyword ends the run at the
    medical check, two steps from Start: the response is the fixed
    medical response (hazard medical_emergency, source rules, no guides,
    no deep dive, guidance telling to call emergency services) and the
    event log is empty, so neither a classifier nor any external call
    was made; the same holds at both endpoints. *)
Theorem medical_short_circuit (cfg : Config) (ext : External) (now : N)
    (m : Mode) (text : string) :
  medicalMatch cfg text = true ->
  exec cfg ext now m text 2 Start = ([], Some (medicalResponse m))
  /\ orchestrate cfg ext now m text = ([], Some (medicalResponse m))
  /\ api_help_deep cfg ext now (Some text) = ([], Ok200 (medicalResponse deep))
  /\ (text <> "" ->
      api_help cfg ext now (Some text) = ([], Ok200 (medicalResponse normal)))
  /\ externalCalls (fst (api_help cfg ext now (Some text))) = []
  /\ medicalResponse m
       = mkResult "medical_emergency" rules [] false MEDICAL_GUIDANCE m
  /\ mentions MEDICAL_GUIDANCE "call emergency services" = true.
Proof.
  intros M.
  assert (O : forall m', orchestrate cfg ext now m' text
                         = ([], Some (medicalResponse m'))).
  { intros m'. rewrite orchestrate_unfold, M. reflexivity. }
  repeat split.
  - advance. settle. advance. rewrite M. settle. reflexivity.
  - apply O.
  - unfold api_help_deep, respond. rewrite O. reflexivity.
  - intros Hne. unfold api_help, respond.
    apply String.eqb_neq in Hne. rewrite Hne, O. reflexivity.
  - unfold api_help, respond. destruct (String.eqb text ""); [reflexivity|].
    rewrite O. reflexivity.
Qed.

Lemma medical_short_circuit_witness :
  api_help sampleConfig (stub (Reply "flood") ReasoningFailed ReasoningFailed) 0
           (Some "My father has CHEST PAIN and is sweating")
  = ([], Ok200 (medicalResponse normal)).
Proof.
  refine (proj1 (proj2 (proj2 (proj2
            (medical_short_circuit sampleConfig
               (stub (Reply "flood") ReasoningFailed ReasoningFailed) 0 normal
               "My father has CHEST PAIN and is sweating" eq_refl)))) _).
  discriminate.
Defined.





(** C3. A request to the deep endpoint that carries a text is always
    answered with a GuidanceResult of mode deep whose guidance is not
    empty; and where the document-informed path is unavailable (no guide
    resolved, no usable file handle, or the external call failed) the
    guidance is the one short-form synthesis gives. *)
Theorem deep_mode_always_answers (cfg : Config) (ext : External) (now : N)
    (text : string) :
  exists r,
    snd (api_help_deep cfg ext now (Some text)) = Ok200 r
    /\ mode r = deep
    /\ guidance r <> ""
    /\ (medicalMatch cfg text = false ->
        guidesUsed r = resolveGuides cfg (hazard r)
        /\ (unavailable cfg ext now text (hazard r) (guidesUsed r) ->
            guidance r = snd (shortForm ext text (hazard r)))).
Proof.
  unfold api_help_deep, respond. rewrite orchestrate_unfold.
  destruct (medicalMatch cfg text); cbv zeta; cbn [fst snd].
  - eexists. split; [reflexivity|]. repeat split; discriminate.
  - eexists. split; [reflexivity|].
    cbn [mode guidance guidesUsed hazard]. repeat split.
    + apply documentInformed_nonempty.
    + apply documentInformed_fallback.
Qed.

(** C6. Two requests to /api/help with the same text against the same
    configuration and catalog give the same hazard and the same guides
    used, whatever the time of the request and whatever the reasoning
    service answers, as long as the classifier's reply to the text is
    the same; and rule classification returns a hazard exactly when its
    rule is the first of the table that matches. *)
Theorem help_is_deterministic (cfg : Config) (ext ext' : External)
    (now now' : N) (text : string) :
  classify ext text = classify ext' text ->
  hazardAndGuides (snd (api_help cfg ext now (Some text)))
    = hazardAndGuides (snd (api_help cfg ext' now' (Some text)))
  /\ (text <> "" ->
      exists r, snd (api_help cfg ext now (Some text)) = Ok200 r)
  /\ (forall h,
        ruleClassify (ruleTable cfg) text = Some h <->
        exists before patterns after,
          ruleTable cfg = before ++ (h, patterns) :: after
          /\ ruleMatches text patterns = true
          /\ Forall (fun r => ruleMatches text (snd r) = false) before).
Proof.
  intros C. repeat split.
  - unfold api_help, respond. destruct (String.eqb text ""); [reflexivity|].
    rewrite !orchestrate_unfold.
    destruct (medicalMatch cfg text); [reflexivity|].
    cbv zeta. unfold classifyHazard.
    destruct (ruleClassify (ruleTable cfg) text); [reflexivity|].
    unfold aiClassify, wbind, wret, tell. cbn [fst snd hazardAndGuides hazard guidesUsed labelName].
    rewrite C. reflexivity.
  - intros Hne. unfold api_help, respond.
    apply String.eqb_neq in Hne. rewrite Hne, orchestrate_unfold.
    destruct (medicalMatch cfg text); cbv zeta; cbn [snd]; eexists; reflexivity.
  - apply ruleClassify_first_match.
  - apply ruleClassify_first_match.
Qed.

Lemma help_is_deterministic_witness :
  hazardAndGuides
    (snd (api_help sampleConfig
            (stub (Reply "wildfire") (GuidanceText "Close the windows.") ReasoningFailed)
            10 (Some "The sky is orange and ash is falling")))
  = hazardAndGuides
      (snd (api_help sampleConfig
              (stub (Reply "wildfire") ReasoningFailed ReasoningFailed)
              2000 (Some "The sky is orange and ash is falling"))).
Proof.
  exact (proj1 (help_is_deterministic sampleConfig
                  (stub (Reply "wildfire") (GuidanceText "Close the windows.") ReasoningFailed)
                  (stub (Reply "wildfire") ReasoningFailed ReasoningFailed)
                  10 2000 "The sky is orange and ash is falling" eq_refl)).
Defined.

End PipelineFacts.

(* ================================================================== *)
(** * Further properties of App.js and ga4.js *)
(* ================================================================== *)

Lemma trimStart_head (s : jsstring) (c : N) (rest : jsstring) :
  trimStart s = c :: rest -> isWhiteSpace c = false.
Proof.
  induction s as [|a s IH]; cbn [trimStart]; [discriminate|].
  destruct (isWhiteSpace a) eqn:W; [exact IH|].
  intros [= <- _]. exact W.
Qed.

Lemma trimStart_snoc (s : jsstring) (c : N) :
  isWhiteSpace c = false -> trimStart (s ++ [c]) = trimStart s ++ [c].
Proof.
  intros W. induction s as [|a s IH]; cbn [app trimStart].
  - now rewrite W.
  - destruct (isWhiteSpace a); [exact IH|reflexivity].
Qed.

Lemma trimEnd_cons (c : N) (s : jsstring) :
  isWhiteSpace c = false -> trimEnd (c :: s) = c :: trimEnd s.
Proof.
  intros W. unfold trimEnd. cbn [rev].
  rewrite (trimStart_snoc _ _ W), rev_app_distr. reflexivity.
Qed.

(** What [trim] returns is empty or starts and ends with a code unit
    that is not white space. *)
Lemma trim_wellTrimmed (s : jsstring) : trim s <> [] -> wellTrimmed (trim s).
Proof.
  intros Hne. split; [exact Hne|]. unfold trim in *. split.
  - destruct (trimStart s) as [|a u] eqn:E; [now elim Hne|].
    pose proof (trimStart_head _ _ _ E) as W.
    rewrite (trimEnd_cons _ _ W). cbn [hd_error]. now intros c [= <-].
  - unfold trimEnd. rewrite rev_involutive. intros c H.
    destruct (trimStart (rev (trimStart s))) as [|a u] eqn:E; [discriminate|].
    cbn [hd_error] in H. injection H as <-.
    exact (trimStart_head _ _ _ E).
Qed.

Lemma windowOpens_app (a b : list Effect) :
  windowOpens (a ++ b) = windowOpens a ++ windowOpens b.
Proof. unfold windowOpens. apply flat_map_app. Qed.

Lemma submit1_state (env : Env) (st : AppState) :
  trim (situationText st) <> [] ->
  completion (submit1 env st) = Normal tt
  /\ final (submit1 env st) =
       match succeeded (fetch env (Rev1.API_BASE ++ endpointOf (mode st))
                              (postJson (trim (situationText st)))) with
       | Some r => mkState (situationText st) (mode st) false (Some r) (str "")
       | None => mkState (situationText st) (mode st) false None
                         (str "Something went wrong. Please try again.")
       end.
Proof.
  intros Hne. unfold_handler.
  destruct (trim (situationText st)) as [|c t]; [congruence|].
  cbn [isEmpty]. unfold succeeded.
  submit_cases env; split; reflexivity.
Qed.

Lemma submit2_state (env : Env) (st : AppState) :
  trim (situationText st) <> [] ->
  completion (submit2 env st) = Normal tt
  /\ final (submit2 env st) =
       match succeeded (fetch env (Rev2.API_BASE env ++ endpointOf (mode st))
                              (postJson (trim (situationText st)))) with
       | Some r => mkState (situationText st) (mode st) false (Some r) (str "")
       | None => mkState (situationText st) (mode st) false None
                         (str "Something went wrong. Please try again.")
       end.
Proof.
  intros Hne. unfold_handler.
  destruct (trim (situationText st)) as [|c t]; [congruence|].
  cbn [isEmpty]. unfold succeeded.
  submit_cases env; split; reflexivity.
Qed.

Lemma outcomeCases_of_succeeded (o : FetchOutcome) (before after : AppState) :
  after =
    match succeeded o with
    | Some r => mkState (situationText before) (mode before) false (Some r) (str "")
    | None => mkState (situationText before) (mode before) false None
                      (str "Something went wrong. Please try again.")
    end ->
  outcomeCases o before after.
Proof.
  intros ->. unfold outcomeCases, succeeded. cbv zeta.
  split; [|split; [|split; [|split]]].
  - intros e ->. reflexivity.
  - intros res -> K. now rewrite K.
  - intros res e -> K J. now rewrite K, J.
  - intros res -> K J. now rewrite K, J.
  - intros res r -> K J. now rewrite K, J.
Qed.

(** X1. In the page of the application, [handleSubmit] on a text that
    is not blank leaves the text and the mode as they were and
    [loading] false, however its request ends. When the request is
    rejected, when the response is not [ok] (whatever its body), when
    the body cannot be decoded, and when it decodes to JSON [null], the
    result is null and the error is the one generic message; when it
    decodes to an object, the result is that object and the error is
    empty. Both revisions. *)
Theorem submit_outcome_by_case (env : Env) (st : AppState) :
  trim (situationText st) <> [] ->
  outcomeCases (fetch env (Rev1.API_BASE ++ endpointOf (mode st))
                      (postJson (trim (situationText st))))
               st (final (submit1 env st))
  /\ outcomeCases (fetch env (Rev2.API_BASE env ++ endpointOf (mode st))
                         (postJson (trim (situationText st))))
                  st (final (submit2 env st)).
Proof.
  intros Hne. split; apply outcomeCases_of_succeeded.
  - exact (proj2 (submit1_state env st Hne)).
  - exact (proj2 (submit2_state env st Hne)).
Qed.

Lemma submit_outcome_by_case_witness :
  final (submit1 (mkEnv (Window true) sampleEngine failingBackend None) typedState)
    = mkState (str "  My basement is flooding ") deep false None
              (str "Something went wrong. Please try again.")
  /\ final (submit2 localEnv typedState)
    = mkState (str "  My basement is flooding ") deep false (Some floodResult) (str "").
Proof.
  split.
  - assert (Hne : trim (situationText typedState) <> []) by (vm_compute; discriminate).
    destruct (submit_outcome_by_case
                (mkEnv (Window true) sampleEngine failingBackend None) typedState Hne)
      as [(_ & B & _) _].
    exact (B _ eq_refl eq_refl).
  - assert (Hne : trim (situationText typedState) <> []) by (vm_compute; discriminate).
    destruct (submit_outcome_by_case localEnv typedState Hne)
      as [_ (_ & _ & _ & _ & O)].
    exact (O _ _ eq_refl eq_refl eq_refl).
Defined.

Lemma submit1_settled (env : Env) (st : AppState) :
  settled st -> settled (final (submit1 env st)).
Proof.
  intros (L & E & R).
  destruct (trim (situationText st)) as [|c t] eqn:T.
  - rewrite (submit1_empty env st T). unfold settled, errorTexts.
    cbn [final loading error result In]. repeat split; try tauto; try congruence.
  - assert (Hne : trim (situationText st) <> []) by congruence.
    rewrite (proj2 (submit1_state env st Hne)).
    destruct (succeeded _); unfold settled, errorTexts;
      cbn [loading error result In]; repeat split; try tauto; congruence.
Qed.

Lemma submit2_settled (env : Env) (st : AppState) :
  settled st -> settled (final (submit2 env st)).
Proof.
  intros (L & E & R).
  destruct (trim (situationText st)) as [|c t] eqn:T.
  - rewrite (submit2_empty env st T). unfold settled, errorTexts.
    cbn [final loading error result In]. repeat split; try tauto; try congruence.
  - assert (Hne : trim (situationText st) <> []) by congruence.
    rewrite (proj2 (submit2_state env st Hne)).
    destruct (succeeded _); unfold settled, errorTexts;
      cbn [loading error result In]; repeat split; try tauto; congruence.
Qed.

Ltac settled_frame L E R :=
  unfold_handler; unfold settled, errorTexts in *;
  cbn [loading error result In] in *;
  repeat split; try tauto; try congruence.

Lemma dispatch1_settled (env : Env) (ev : UiEvent) (st : AppState) :
  settled st -> settled (final (Rev1.dispatch env ev st)).
Proof.
  intros S. pose proof S as (L & E & R).
  destruct ev; cbn [Rev1.dispatch]; unfold Rev1.submitDisabled, Rev1.resetDisabled;
    rewrite ?L; cbn [andb].
  - unfold_handler. destruct (host env) as [|[|]]; settled_frame L E R.
  - settled_frame L E R.
  - settled_frame L E R.
  - now apply submit1_settled.
  - unfold_handler. destruct (host env) as [|[|]]; settled_frame L E R.
  - exact S.
Qed.

Lemma dispatch2_settled (env : Env) (ev : UiEvent) (st : AppState) :
  settled st -> settled (final (Rev2.dispatch env ev st)).
Proof.
  intros S. pose proof S as (L & E & R).
  destruct ev; cbn [Rev2.dispatch]; unfold Rev2.submitDisabled, Rev2.resetDisabled;
    rewrite ?L; cbn [andb].
  - unfold_handler. destruct (host env) as [|[|]]; settled_frame L E R.
  - settled_frame L E R.
  - settled_frame L E R.
  - now apply submit2_settled.
  - unfold_handler. destruct (host env) as [|[|]]; settled_frame L E R.
  - unfold_handler. destruct (host env) as [|[|]]; settled_frame L E R.
Qed.

Lemma UiEvent_is_submit (ev : UiEvent) : ev = Submit \/ ev <> Submit.
Proof. destruct ev; (now left) || (right; discriminate). Qed.

(** Cutting the handler at its awaits changes nothing when the pieces
    run back to back. *)
Lemma runToEnd_first (env : Env) (text : jsstring) (m : Mode) (st : AppState) :
  runToEnd First env text m st = Rev1.handleSubmit env text m st.
Proof.
  unfold runToEnd, submitBegins, resumes, caught, apiBase.
  unfold_handler.
  destruct (trim text) as [|c t]; cbn [isEmpty]; [reflexivity|].
  destruct (host env) as [|[|]]; cbn [app].
  all: destruct (fetch env _ _) as [?e|[[|] ?s [?e|[|?r]]]];
    cbn [app ok status json negb dataResult]; reflexivity.
Qed.

Lemma runToEnd_second (env : Env) (text : jsstring) (m : Mode) (st : AppState) :
  runToEnd Second env text m st = Rev2.handleSubmit env text m st.
Proof.
  unfold runToEnd, submitBegins, resumes, caught, apiBase.
  unfold_handler.
  destruct (trim text) as [|c t]; cbn [isEmpty]; [reflexivity|].
  destruct (host env) as [|[|]]; cbn [app].
  all: destruct (fetch env _ _) as [?e|[[|] ?s [?e|[|?r]]]];
    cbn [app ok status json negb dataResult]; reflexivity.
Qed.

Lemma dispatchOf_settled (rev : Revision) (env : Env) (ev : UiEvent)
    (st : AppState) :
  settled st -> settled (final (dispatchOf rev env ev st)).
Proof.
  destruct rev; [apply dispatch1_settled|apply dispatch2_settled].
Qed.

(** While a request is in flight the controls that could disturb it are
    disabled: no event of the user changes [loading], the result or the
    error. *)
Lemma dispatchOf_in_flight (rev : Revision) (env : Env) (ev : UiEvent)
    (st : AppState) :
  ev <> Submit ->
  loading st = true -> result st = None -> error st = str "" ->
  loading (final (dispatchOf rev env ev st)) = true
  /\ result (final (dispatchOf rev env ev st)) = None
  /\ error (final (dispatchOf rev env ev st)) = str "".
Proof.
  intros NS L R E.
  destruct rev, ev; try congruence;
    cbn [dispatchOf Rev1.dispatch Rev2.dispatch];
    unfold Rev1.resetDisabled, Rev2.resetDisabled; rewrite ?L, ?R; cbn [andb];
    unfold_handler; try (destruct (host env) as [|[|]]);
    cbn [loading result error]; auto.
Qed.

Lemma submitBegins_settled (rev : Revision) (env : Env) (st : AppState) :
  settled st ->
  liveSettled
    (mkLive (final (submitBegins rev env (situationText st) (mode st) st))
            match suspension (completion
                    (submitBegins rev env (situationText st) (mode st) st)) with
            | Some s => [s]
            | None => []
            end).
Proof.
  intros (L & E & R). unfold submitBegins, apiBase. unfold_handler.
  destruct (trim (situationText st)) as [|c t]; cbn [isEmpty].
  - left. cbn [suspension inFlight ui]. split; [reflexivity|].
    unfold settled, errorTexts. cbn [loading error result In].
    repeat split; try tauto; try congruence.
  - right.
    destruct rev, (host env) as [|[|]]; cbn [suspension inFlight ui];
      eexists; repeat split.
Qed.

Lemma resumes_settled (rev : Revision) (env : Env) (s : Suspended)
    (st : AppState) :
  loading st = true -> result st = None -> error st = str "" ->
  liveSettled
    (mkLive (final (resumes rev env s st))
            (afterResume 0 (suspension (completion (resumes rev env s st))) [s])).
Proof.
  intros L R E. unfold resumes, caught, afterResume. unfold_handler.
  destruct s as [url init|res].
  - destruct (fetch env url init) as [e|[[|] code j]]; cbn [ok negb].
    + left. destruct rev, (host env) as [|[|]];
        cbn [suspension firstn skipn app inFlight ui];
        (split; [reflexivity|]); unfold settled, errorTexts;
        cbn [loading error result In]; repeat split; try tauto; try congruence.
    + right. cbn [suspension firstn skipn app inFlight ui].
      eexists. repeat split; assumption.
    + left. destruct rev, (host env) as [|[|]];
        cbn [suspension firstn skipn app inFlight ui];
        (split; [reflexivity|]); unfold settled, errorTexts;
        cbn [loading error result In]; repeat split; try tauto; try congruence.
  - left. destruct res as [k code [e|[|r]]]; cbn [json dataResult];
      destruct rev, (host env) as [|[|]];
      cbn [suspension firstn skipn app inFlight ui];
      (split; [reflexivity|]); unfold settled, errorTexts;
      cbn [loading error result In]; rewrite ?E;
      repeat split; try tauto; try congruence.
Qed.

Lemma liveStep_settled (rev : Revision) (env : Env) (e : LiveEvent) (l : Live) :
  liveSettled l -> liveSettled (snd (liveStep rev env e l)).
Proof.
  intros S. destruct e as [ev|i].
  - destruct (UiEvent_is_submit ev) as [->|NS].
    + cbn [liveStep]. destruct (loading (ui l)) eqn:L; [exact S|].
      cbn [snd]. destruct S as [(F & S)|(s & F & L' & _)]; [|congruence].
      rewrite F. cbn [app]. now apply submitBegins_settled.
    + assert (H : snd (liveStep rev env (User ev) l)
                  = mkLive (final (dispatchOf rev env ev (ui l))) (inFlight l)).
      { destruct ev; try reflexivity. congruence. }
      rewrite H. destruct S as [(F & S)|(s & F & L & R & E)].
      * left. cbn [inFlight ui]. split; [exact F|now apply dispatchOf_settled].
      * right. exists s. cbn [inFlight ui]. split; [exact F|].
        now apply dispatchOf_in_flight.
  - cbn [liveStep]. destruct S as [(F & S)|(s & F & L & R & E)].
    + rewrite F. destruct i; cbn [nth_error snd]; left; split; assumption.
    + rewrite F. destruct i as [|i].
      * cbn [nth_error snd]. now apply resumes_settled.
      * destruct i; cbn [nth_error snd]; right; exists s; repeat split; assumption.
Qed.

(** X2. Throughout any run of either revision in which the async
    [handleSubmit] is suspended at its awaits and other events are
    handled meanwhile: at most one submission is in flight; [loading]
    is true exactly while one is, and then the result is null and the
    error empty; and while none is, the error is one of three fixed
    texts (never a text from the backend or from an exception) and no
    error is shown beside a result. The mounted component starts so and
    every event, of the user or of a settling request, keeps it so.
    The page is the application's ([Host]: [window.gtag] missing or the
    GA function, which returns); a [gtag] that throws at the first
    [trackEvent], which is outside the [try], would leave [loading] true
    with nothing in flight. *)
Theorem live_run_stays_settled (rev : Revision) (env : Env)
    (es : list LiveEvent) (l : Live) :
  liveSettled l ->
  liveSettled (snd (liveRun rev env l es))
  /\ List.length (inFlight (snd (liveRun rev env l es))) <= 1
  /\ (loading (ui (snd (liveRun rev env l es))) = true <->
      inFlight (snd (liveRun rev env l es)) <> []).
Proof.
  intros S.
  assert (G : liveSettled (snd (liveRun rev env l es))).
  { revert l S. induction es as [|e es IH]; intros l S; cbn [liveRun snd].
    - exact S.
    - apply IH. now apply liveStep_settled. }
  split; [exact G|].
  destruct G as [(F & L & _)|(s & F & L & _)]; rewrite F, L; cbn [List.length].
  - split; [lia|]. split; [discriminate|congruence].
  - split; [lia|]. split; [discriminate|reflexivity].
Qed.

Lemma live_run_stays_settled_witness :
  liveSettled (snd (liveRun Second localEnv mounted lateRun))
  /\ List.length (inFlight (snd (liveRun Second localEnv mounted lateRun))) <= 1.
Proof.
  assert (S : liveSettled mounted).
  { left. split; [reflexivity|]. split; [reflexivity|].
    split; [left; reflexivity|]. intros _. reflexivity. }
  pose proof (live_run_stays_settled Second localEnv lateRun mounted S) as (A & B & _).
  exact (conj A B).
Defined.

(** X3. With no request in flight the Reset button of the second
    revision puts the form back exactly into its mounted state, mode
    included, so that whatever follows behaves as in a fresh session;
    the first revision clears text, result and error but keeps the
    selected mode. Neither makes a request. *)
Theorem reset_restores_form (env : Env) (st : AppState) (evs : list UiEvent) :
  loading st = false ->
  final (Rev2.dispatch env Reset st) = initialState
  /\ snd (Rev2.session env st (Reset :: evs)) = snd (Rev2.session env initialState evs)
  /\ final (Rev1.dispatch env Reset st)
       = mkState (str "") (mode st) false None (str "")
  /\ filter isOutbound (trace (Rev1.dispatch env Reset st)) = []
  /\ filter isOutbound (trace (Rev2.dispatch env Reset st)) = [].
Proof.
  intros L.
  assert (F2 : final (Rev2.dispatch env Reset st) = initialState).
  { cbn [Rev2.dispatch]. unfold Rev2.resetDisabled. rewrite L. cbn [andb].
    unfold_handler. rewrite L. destruct (host env) as [|[|]]; reflexivity. }
  split; [exact F2|]. split.
  - cbn [Rev2.session snd]. now rewrite F2.
  - cbn [Rev1.dispatch Rev2.dispatch].
    unfold Rev1.resetDisabled, Rev2.resetDisabled. rewrite L. cbn [andb].
    unfold_handler. rewrite L.
    destruct (host env) as [|[|]]; repeat split; reflexivity.
Qed.

Lemma reset_restores_form_witness :
  final (Rev2.dispatch localEnv Reset deepShownState) = initialState
  /\ final (Rev1.dispatch localEnv Reset deepShownState)
       = mkState (str "") deep false None (str "").
Proof.
  pose proof (reset_restores_form localEnv deepShownState [] eq_refl)
    as (F2 & _ & F1 & _).
  exact (conj F2 F1).
Defined.

Lemma dispatch1_fetches (env : Env) (ev : UiEvent) (st : AppState) :
  fetches (trace (Rev1.dispatch env ev st)) = []
  \/ (ev = Submit /\ trim (situationText st) <> []
      /\ fetches (trace (Rev1.dispatch env ev st))
           = [(Rev1.API_BASE ++ endpointOf (mode st),
               postJson (trim (situationText st)))]).
Proof.
  destruct ev; cbn [Rev1.dispatch].
  - left. unfold_handler. destruct (host env) as [|[|]]; reflexivity.
  - now left.
  - left. destruct (loading st); reflexivity.
  - destruct (Rev1.submitDisabled st); [now left|].
    change (Rev1.handleSubmit env (situationText st) (mode st) st) with (submit1 env st).
    destruct (trim (situationText st)) as [|c t] eqn:T.
    + left. now rewrite (submit1_empty env st T).
    + right. assert (Hne : trim (situationText st) <> []) by congruence.
      split; [reflexivity|]. split; [discriminate|].
      rewrite fetches_outbound, (submit1_outbound env st Hne), T. reflexivity.
  - left. destruct (Rev1.resetDisabled st); [reflexivity|].
    unfold_handler. destruct (host env) as [|[|]]; reflexivity.
  - now left.
Qed.

Lemma dispatch2_fetches (env : Env) (ev : UiEvent) (st : AppState) :
  fetches (trace (Rev2.dispatch env ev st)) = []
  \/ (ev = Submit /\ trim (situationText st) <> []
      /\ fetches (trace (Rev2.dispatch env ev st))
           = [(Rev2.API_BASE env ++ endpointOf (mode st),
               postJson (trim (situationText st)))]).
Proof.
  destruct ev; cbn [Rev2.dispatch].
  - left. unfold_handler. destruct (host env) as [|[|]]; reflexivity.
  - now left.
  - left. destruct (loading st); reflexivity.
  - destruct (Rev2.submitDisabled st); [now left|].
    change (Rev2.handleSubmit env (situationText st) (mode st) st) with (submit2 env st).
    destruct (trim (situationText st)) as [|c t] eqn:T.
    + left. now rewrite (submit2_empty env st T).
    + right. assert (Hne : trim (situationText st) <> []) by congruence.
      split; [reflexivity|]. split; [discriminate|].
      rewrite fetches_outbound, (submit2_outbound env st Hne), T. reflexivity.
  - left. destruct (Rev2.resetDisabled st); [reflexivity|].
    unfold_handler. destruct (host env) as [|[|]]; reflexivity.
  - left. unfold_handler. destruct (host env) as [|[|]]; reflexivity.
Qed.

Lemma guidanceRequest_made (base : jsstring) (m : Mode) (s : jsstring) :
  trim s <> [] ->
  guidanceRequest base (base ++ endpointOf m, postJson (trim s)).
Proof.
  intros Hne. exists (trim s). cbn [fst snd].
  split; [reflexivity|]. split; [now apply trim_wellTrimmed|].
  destruct m; [left|right]; reflexivity.
Qed.

(** X4. Every request a session of either revision makes goes to
    [/api/help] or [/api/help/deep] under the revision's API base, is a
    POST with the JSON content type, and carries as [situationText] a
    text that is not empty and neither starts nor ends with white
    space. *)
Theorem session_requests_are_guidance_posts (env : Env) (evs : list UiEvent)
    (st : AppState) :
  Forall (guidanceRequest Rev1.API_BASE) (fetches (fst (Rev1.session env st evs)))
  /\ Forall (guidanceRequest (Rev2.API_BASE env))
            (fetches (fst (Rev2.session env st evs))).
Proof.
  split.
  - revert st. induction evs as [|ev evs IH]; intros st;
      cbn [Rev1.session fst]; [constructor|].
    rewrite fetches_app. apply Forall_app. split; [|apply IH].
    destruct (dispatch1_fetches env ev st) as [E | (_ & Hne & E)]; rewrite E.
    + constructor.
    + constructor; [now apply guidanceRequest_made|constructor].
  - revert st. induction evs as [|ev evs IH]; intros st;
      cbn [Rev2.session fst]; [constructor|].
    rewrite fetches_app. apply Forall_app. split; [|apply IH].
    destruct (dispatch2_fetches env ev st) as [E | (_ & Hne & E)]; rewrite E.
    + constructor.
    + constructor; [now apply guidanceRequest_made|constructor].
Qed.

Lemma dispatch1_opens (env : Env) (ev : UiEvent) (st : AppState) :
  windowOpens (trace (Rev1.dispatch env ev st)) = [].
Proof.
  destruct ev; cbn [Rev1.dispatch]; try reflexivity.
  - unfold_handler. destruct (host env) as [|[|]]; reflexivity.
  - destruct (loading st); reflexivity.
  - destruct (Rev1.submitDisabled st); [reflexivity|].
    unfold_handler. destruct (trim (situationText st)); cbn [isEmpty]; [reflexivity|].
    submit_cases env; reflexivity.
  - destruct (Rev1.resetDisabled st); [reflexivity|].
    unfold_handler. destruct (host env) as [|[|]]; reflexivity.
Qed.

Lemma dispatch2_opens (env : Env) (ev : UiEvent) (st : AppState) :
  windowOpens (trace (Rev2.dispatch env ev st)) =
    if isDonateClick ev
    then [(Rev2.KO_FI_URL, str "_blank", str "noopener,noreferrer")]
    else [].
Proof.
  destruct ev; cbn [Rev2.dispatch isDonateClick]; try reflexivity.
  - unfold_handler. destruct (host env) as [|[|]]; reflexivity.
  - destruct (loading st); reflexivity.
  - destruct (Rev2.submitDisabled st); [reflexivity|].
    unfold_handler. destruct (trim (situationText st)); cbn [isEmpty]; [reflexivity|].
    submit_cases env; reflexivity.
  - destruct (Rev2.resetDisabled st); [reflexivity|].
    unfold_handler. destruct (host env) as [|[|]]; reflexivity.
  - unfold_handler. destruct (host env) as [|[|]]; reflexivity.
Qed.

(** X5. A session makes at most one request per submit event and none
    without one; the first revision never opens a window, and the
    second opens the Ko-fi page, in a new tab without opener, once per
    click on the donate button and at no other time. *)
Theorem session_traffic_follows_the_user (env : Env) (evs : list UiEvent)
    (st : AppState) :
  List.length (fetches (fst (Rev1.session env st evs)))
    <= List.length (filter isSubmit evs)
  /\ List.length (fetches (fst (Rev2.session env st evs)))
       <= List.length (filter isSubmit evs)
  /\ windowOpens (fst (Rev1.session env st evs)) = []
  /\ windowOpens (fst (Rev2.session env st evs))
       = repeat (str "https://ko-fi.com/nikharbhavsar", str "_blank",
                 str "noopener,noreferrer")
                (List.length (filter isDonateClick evs)).
Proof.
  repeat split.
  - revert st. induction evs as [|ev evs IH]; intros st;
      cbn [Rev1.session fst filter]; [apply Nat.le_refl|].
    rewrite fetches_app, length_app. specialize (IH (final (Rev1.dispatch env ev st))).
    destruct (dispatch1_fetches env ev st) as [E | (-> & _ & E)]; rewrite E;
      cbn [List.length isSubmit Nat.add].
    + destruct (isSubmit ev); cbn [List.length]; lia.
    + lia.
  - revert st. induction evs as [|ev evs IH]; intros st;
      cbn [Rev2.session fst filter]; [apply Nat.le_refl|].
    rewrite fetches_app, length_app. specialize (IH (final (Rev2.dispatch env ev st))).
    destruct (dispatch2_fetches env ev st) as [E | (-> & _ & E)]; rewrite E;
      cbn [List.length isSubmit Nat.add].
    + destruct (isSubmit ev); cbn [List.length]; lia.
    + lia.
  - revert st. induction evs as [|ev evs IH]; intros st;
      cbn [Rev1.session fst]; [reflexivity|].
    now rewrite windowOpens_app, dispatch1_opens, IH.
  - revert st. induction evs as [|ev evs IH]; intros st;
      cbn [Rev2.session fst filter]; [reflexivity|].
    rewrite windowOpens_app, dispatch2_opens, IH.
    destruct (isDonateClick ev); reflexivity.
Qed.

Lemma submit1_gtag (env : Env) (st : AppState) :
  filter isGtagCall (trace (submit1 env st)) =
    if gtagAvailable (host env) then flat_map toGtag (trace (submit1 env st)) else [].
Proof.
  unfold_handler.
  destruct (trim (situationText st)) as [|c t]; cbn [isEmpty].
  - destruct (gtagAvailable (host env)); reflexivity.
  - submit_cases env; reflexivity.
Qed.

Lemma submit2_gtag (env : Env) (st : AppState) :
  filter isGtagCall (trace (submit2 env st)) =
    if gtagAvailable (host env) then flat_map toGtag (trace (submit2 env st)) else [].
Proof.
  unfold_handler.
  destruct (trim (situationText st)) as [|c t]; cbn [isEmpty].
  - destruct (gtagAvailable (host env)); reflexivity.
  - submit_cases env; reflexivity.
Qed.

Lemma dispatch1_gtag (env : Env) (ev : UiEvent) (st : AppState) :
  filter isGtagCall (trace (Rev1.dispatch env ev st)) =
    if gtagAvailable (host env)
    then flat_map toGtag (trace (Rev1.dispatch env ev st)) else [].
Proof.
  destruct ev; cbn [Rev1.dispatch].
  - unfold_handler. destruct (host env) as [|[|]]; reflexivity.
  - destruct (gtagAvailable (host env)); reflexivity.
  - destruct (loading st), (gtagAvailable (host env)); reflexivity.
  - destruct (Rev1.submitDisabled st); [|apply submit1_gtag].
    destruct (gtagAvailable (host env)); reflexivity.
  - destruct (Rev1.resetDisabled st).
    + destruct (gtagAvailable (host env)); reflexivity.
    + unfold_handler. destruct (host env) as [|[|]]; reflexivity.
  - destruct (gtagAvailable (host env)); reflexivity.
Qed.

Lemma dispatch2_gtag (env : Env) (ev : UiEvent) (st : AppState) :
  filter isGtagCall (trace (Rev2.dispatch env ev st)) =
    if gtagAvailable (host env)
    then flat_map toGtag (trace (Rev2.dispatch env ev st)) else [].
Proof.
  destruct ev; cbn [Rev2.dispatch].
  - unfold_handler. destruct (host env) as [|[|]]; reflexivity.
  - destruct (gtagAvailable (host env)); reflexivity.
  - destruct (loading st), (gtagAvailable (host env)); reflexivity.
  - destruct (Rev2.submitDisabled st); [|apply submit2_gtag].
    destruct (gtagAvailable (host env)); reflexivity.
  - destruct (Rev2.resetDisabled st).
    + destruct (gtagAvailable (host env)); reflexivity.
    + unfold_handler. destruct (host env) as [|[|]]; reflexivity.
  - unfold_handler. destruct (host env) as [|[|]]; reflexivity.
Qed.

(** X6. In a session of either revision the [window.gtag] calls are
    exactly the calls the component makes into ga4.js, one for one, in
    the same order and with the same arguments, when [window.gtag] is
    there; and there is no [gtag] call at all when [window] or
    [window.gtag] is missing. *)
Theorem session_gtag_mirrors_calls (env : Env) (evs : list UiEvent)
    (st : AppState) :
  filter isGtagCall (fst (Rev1.session env st evs)) =
    (if gtagAvailable (host env)
     then flat_map toGtag (fst (Rev1.session env st evs)) else [])
  /\ filter isGtagCall (fst (Rev2.session env st evs)) =
       (if gtagAvailable (host env)
        then flat_map toGtag (fst (Rev2.session env st evs)) else []).
Proof.
  split.
  - revert st. induction evs as [|ev evs IH]; intros st; cbn [Rev1.session fst].
    + destruct (gtagAvailable (host env)); reflexivity.
    + rewrite filter_app, flat_map_app, dispatch1_gtag, IH.
      destruct (gtagAvailable (host env)); reflexivity.
  - revert st. induction evs as [|ev evs IH]; intros st; cbn [Rev2.session fst].
    + destruct (gtagAvailable (host env)); reflexivity.
    + rewrite filter_app, flat_map_app, dispatch2_gtag, IH.
      destruct (gtagAvailable (host env)); reflexivity.
Qed.

(** X7. The second revision never hands [marked.parse] a missing
    guidance: where the first revision passes [result.guidance] as it
    is, [undefined] and [null] included, the second passes the empty
    string for every falsy guidance and the same value as the first for
    every truthy one. *)
Theorem marked_input_is_never_missing (r : GuidanceResult) :
  Rev1.markedInput r = guidance r
  /\ Rev2.markedInput r <> VUndefined
  /\ Rev2.markedInput r <> VNull
  /\ Rev2.markedInput r =
       (if truthy (guidance r) then Rev1.markedInput r else VStr (str "")).
Proof.
  unfold Rev1.markedInput, Rev2.markedInput, js_or.
  destruct (guidance r) as [| |[|]|z|s]; cbn [truthy]; repeat split;
    try discriminate.
  - destruct (z =? 0)%Z; discriminate.
  - destruct (z =? 0)%Z; discriminate.
  - destruct (isEmpty s); discriminate.
  - destruct (isEmpty s); discriminate.
Qed.

(** X8. Typing a text, setting the checkbox and submitting, with no
    request in flight, sends exactly one request: the trimmed text that
    was typed, to the deep endpoint when the box was ticked and to the
    normal endpoint when it was not, whatever text and mode the form
    held before. Both revisions. *)
Theorem typed_text_and_checkbox_decide_the_request (env : Env) (st : AppState)
    (value : jsstring) (checked : bool) :
  loading st = false ->
  trim value <> [] ->
  fetches (fst (Rev1.session env st [Change value; Toggle checked; Submit]))
    = [(Rev1.API_BASE ++ (if checked then str "/api/help/deep" else str "/api/help"),
        postJson (trim value))]
  /\ fetches (fst (Rev2.session env st [Change value; Toggle checked; Submit]))
    = [(Rev2.API_BASE env ++ (if checked then str "/api/help/deep" else str "/api/help"),
        postJson (trim value))].
Proof.
  intros L Hne.
  destruct st as [t0 m0 l0 r0 e0]. cbn [loading] in L. subst l0.
  cbn [Rev1.session Rev2.session Rev1.dispatch Rev2.dispatch fst snd
       setSituationText setMode final trace loading situationText mode
       result error Rev1.submitDisabled Rev2.submitDisabled app].
  set (st' := mkState value (if checked then deep else normal) false r0 e0).
  change (Rev1.handleSubmit env value (if checked then deep else normal) st')
    with (submit1 env st').
  change (Rev2.handleSubmit env value (if checked then deep else normal) st')
    with (submit2 env st').
  rewrite (app_nil_r (trace (submit1 env st'))), (app_nil_r (trace (submit2 env st'))).
  rewrite (fetches_outbound (trace (submit1 env st'))).
  rewrite (fetches_outbound (trace (submit2 env st'))).
  rewrite (submit1_outbound env st' Hne), (submit2_outbound env st' Hne).
  destruct checked; split; reflexivity.
Qed.

Lemma typed_text_and_checkbox_decide_the_request_witness :
  fetches (fst (Rev2.session deployedEnv deepShownState
                  [Change (str " I smell gas  "); Toggle false; Submit]))
  = [(str "https://emergency-ai-backend.onrender.com/api/help",
      postJson (str "I smell gas"))].
Proof.
  refine (proj2 (typed_text_and_checkbox_decide_the_request deployedEnv deepShownState
                   (str " I smell gas  ") false eq_refl _)).
  vm_compute. discriminate.
Defined.

Lemma trimStart_blank (s : jsstring) :
  trimStart s = [] <-> forallb isWhiteSpace s = true.
Proof.
  induction s as [|a s IH]; cbn [trimStart forallb]; [tauto|].
  destruct (isWhiteSpace a); cbn [andb]; [exact IH|].
  split; discriminate.
Qed.

Lemma trim_blank (s : jsstring) :
  trim s = [] <-> forallb isWhiteSpace s = true.
Proof.
  rewrite <- trimStart_blank. unfold trim. split.
  - destruct (trimStart s) as [|a u] eqn:E; [reflexivity|].
    rewrite (trimEnd_cons _ _ (trimStart_head _ _ _ E)). discriminate.
  - intros ->. reflexivity.
Qed.

(** X9. [handleSubmit] turns a text away exactly when every code unit
    of it is white space (the empty text included): then it makes no
    request and shows "Please describe your situation."; in every other
    case it makes exactly one request, carrying the trimmed text. Both
    revisions. *)
Theorem submit_rejects_exactly_blank_texts (env : Env) (st : AppState) :
  (fetches (trace (submit1 env st)) =
     (if forallb isWhiteSpace (situationText st) then []
      else [(Rev1.API_BASE ++ endpointOf (mode st),
             postJson (trim (situationText st)))])
   /\ (forallb isWhiteSpace (situationText st) = true <->
       error (final (submit1 env st)) = str "Please describe your situation."))
  /\
  (fetches (trace (submit2 env st)) =
     (if forallb isWhiteSpace (situationText st) then []
      else [(Rev2.API_BASE env ++ endpointOf (mode st),
             postJson (trim (situationText st)))])
   /\ (forallb isWhiteSpace (situationText st) = true <->
       error (final (submit2 env st)) = str "Please describe your situation.")).
Proof.
  destruct (forallb isWhiteSpace (situationText st)) eqn:B.
  - apply trim_blank in B.
    rewrite (submit1_empty env st B), (submit2_empty env st B).
    cbn [trace final error fetches flat_map]. repeat split; reflexivity.
  - assert (Hne : trim (situationText st) <> []).
    { intros T. apply trim_blank in T. congruence. }
    rewrite (fetches_outbound (trace (submit1 env st))), (submit1_outbound env st Hne).
    rewrite (fetches_outbound (trace (submit2 env st))), (submit2_outbound env st Hne).
    rewrite (proj2 (submit1_state env st Hne)), (proj2 (submit2_state env st Hne)).
    repeat split; try reflexivity; try discriminate;
      destruct (succeeded _); cbn [error]; discriminate.
Qed.

Lemma submit1_actions (env : Env) (st : AppState) :
  trim (situationText st) <> [] ->
  trackedActions (trace (submit1 env st)) =
    [VStr (str "submit_help_request");
     match succeeded (fetch env (Rev1.API_BASE ++ endpointOf (mode st))
                            (postJson (trim (situationText st)))) with
     | Some _ => VStr (str "help_request_success")
     | None => VStr (str "help_request_error")
     end].
Proof.
  intros Hne. unfold_handler.
  destruct (trim (situationText st)) as [|c t]; [congruence|].
  cbn [isEmpty]. unfold succeeded. submit_cases env; reflexivity.
Qed.

Lemma submit2_actions (env : Env) (st : AppState) :
  trim (situationText st) <> [] ->
  trackedActions (trace (submit2 env st)) =
    [VStr (str "submit_help_request");
     match succeeded (fetch env (Rev2.API_BASE env ++ endpointOf (mode st))
                            (postJson (trim (situationText st)))) with
     | Some _ => VStr (str "help_request_success")
     | None => VStr (str "help_request_error")
     end].
Proof.
  intros Hne. unfold_handler.
  destruct (trim (situationText st)) as [|c t]; [congruence|].
  cbn [isEmpty]. unfold succeeded. submit_cases env; reflexivity.
Qed.

(** X10. What a submission reports to analytics agrees with what it
    shows: for a text that is not blank exactly two events are tracked,
    [submit_help_request] and then [help_request_success] when a result
    is put on screen, or [help_request_error] when the error message
    is; an answer that decodes to JSON [null] counts as an error. Both
    revisions. *)
Theorem tracked_outcome_matches_display (env : Env) (st : AppState) :
  trim (situationText st) <> [] ->
  (trackedActions (trace (submit1 env st)) =
     [VStr (str "submit_help_request");
      match result (final (submit1 env st)) with
      | Some _ => VStr (str "help_request_success")
      | None => VStr (str "help_request_error")
      end]
   /\ (result (final (submit1 env st)) = None <->
       error (final (submit1 env st)) = str "Something went wrong. Please try again."))
  /\
  (trackedActions (trace (submit2 env st)) =
     [VStr (str "submit_help_request");
      match result (final (submit2 env st)) with
      | Some _ => VStr (str "help_request_success")
      | None => VStr (str "help_request_error")
      end]
   /\ (result (final (submit2 env st)) = None <->
       error (final (submit2 env st)) = str "Something went wrong. Please try again.")).
Proof.
  intros Hne.
  rewrite (submit1_actions env st Hne), (submit2_actions env st Hne).
  rewrite (proj2 (submit1_state env st Hne)), (proj2 (submit2_state env st Hne)).
  split; destruct (succeeded _); cbn [result error];
    repeat split; try reflexivity; discriminate.
Qed.

Lemma tracked_outcome_matches_display_witness :
  trackedActions
    (trace (submit1 (mkEnv (Window true) sampleEngine nullBackend None) typedState))
  = [VStr (str "submit_help_request"); VStr (str "help_request_error")].
Proof.
  refine (proj1 (proj1 (tracked_outcome_matches_display
            (mkEnv (Window true) sampleEngine nullBackend None) typedState _))).
  vm_compute. discriminate.
Defined.

(** X11. With [REACT_APP_API_URL] unset the second revision's
    [handleSubmit] differs from the first only in what it writes to the
    console: both end in the same state with the same completion, and
    make the same calls in the same order once the console calls are
    left out. *)
Theorem submit_revisions_agree (env : Env) (st : AppState) :
  REACT_APP_API_URL env = None ->
  final (submit2 env st) = final (submit1 env st)
  /\ completion (submit2 env st) = completion (submit1 env st)
  /\ withoutConsole (trace (submit2 env st)) = withoutConsole (trace (submit1 env st)).
Proof.
  intros U.
  assert (B : Rev2.API_BASE env = Rev1.API_BASE).
  { unfold Rev2.API_BASE. rewrite U. reflexivity. }
  unfold_handler. rewrite B.
  destruct (trim (situationText st)) as [|c t]; cbn [isEmpty].
  - repeat split.
  - submit_cases env; repeat split.
Qed.

Lemma submit_revisions_agree_witness :
  final (submit2 localEnv typedState) = final (submit1 localEnv typedState)
  /\ withoutConsole (trace (submit2 localEnv typedState))
       = withoutConsole (trace (submit1 localEnv typedState)).
Proof.
  pose proof (submit_revisions_agree localEnv typedState eq_refl) as (F & _ & T).
  exact (conj F T).
Defined.
